(** * Shallow embedding of scripts/validate_system_requirements.py

    Python [int] is modelled as [Z], Python [float] as an exact rational
    [Q], [str] as [string].  The hardware probes are OS calls; what is
    modelled of them is how each builds its info record from the raw
    measurements (the [return CPUInfo(...)] etc. of each [get_*_info]). *)

From Stdlib Require Import ZArith QArith Qround String Ascii List Bool Lia.
Import ListNotations.
Open Scope string_scope.
Set Warnings "-register-all".

Module Validator.

(** ** Thresholds: class attributes of [SystemValidator] *)

Definition MIN_CPU_CORES : Z := 8.
Definition RECOMMENDED_CPU_CORES : Z := 12.
Definition MIN_RAM_GB : Z := 32.
Definition RECOMMENDED_RAM_GB : Z := 40.
Definition MIN_STORAGE_GB : Z := 50.
Definition MIN_VRAM_GB : Z := 16.
Definition RECOMMENDED_VRAM_GB : Z := 24.
Definition OPTIMAL_VRAM_GB : Z := 32.

(** Python's [float >= int] / [float < int]: exact comparison. *)
Definition fge (x : Q) (n : Z) : bool := Qle_bool (inject_Z n) x.
Definition flt (x : Q) (n : Z) : bool := negb (fge x n).

(** [round(x, 2)]: nearest multiple of 1/100, ties to even. *)
Definition round2 (x : Q) : Q :=
  let y := (x * 100)%Q in
  let n := Qfloor y in
  let f := (y - inject_Z n)%Q in
  let k := match Qcompare f (1 # 2) with
           | Lt => n
           | Gt => (n + 1)%Z
           | Eq => if Z.even n then n else (n + 1)%Z
           end in
  Qmake k 100.

(** ** Data classes *)

Record CPUInfo := mkCPUInfo {
  model : string;
  cores : Z;
  threads : Z;
  architecture : string;
  cpu_meets_minimum : bool;
  cpu_meets_recommended : bool
}.

Record MemoryInfo := mkMemoryInfo {
  mem_total_gb : Q;
  mem_available_gb : Q;
  mem_meets_minimum : bool;
  mem_meets_recommended : bool
}.

Record GPUInfo := mkGPUInfo {
  name : string;
  vram_gb : Q;
  cuda_version : string;
  driver_version : string;
  compute_capability : string;
  is_available : bool;
  recommended_quantization : string
}.

Record StorageInfo := mkStorageInfo {
  sto_total_gb : Q;
  sto_available_gb : Q;
  sto_meets_minimum : bool;
  filesystem : string
}.

Record SystemReport := mkSystemReport {
  cpu : CPUInfo;
  memory : MemoryInfo;
  gpu : option GPUInfo;
  storage : StorageInfo;
  overall_status : string;
  recommendations : list string;
  warnings : list string;
  timestamp : string
}.

(** ** Threshold evaluation inside the probes *)

(** [get_cpu_info], lines 137-144, from the measured core count. *)
Definition get_cpu_info (model_ : string) (cores_ threads_ : Z) (arch : string)
  : CPUInfo :=
  {| model := model_; cores := cores_; threads := threads_;
     architecture := arch;
     cpu_meets_minimum := (cores_ >=? MIN_CPU_CORES)%Z;
     cpu_meets_recommended := (cores_ >=? RECOMMENDED_CPU_CORES)%Z |}.

(** [get_cpu_info], exception branch. *)
Definition cpu_info_fallback (arch : string) : CPUInfo :=
  {| model := "Unknown"; cores := 0; threads := 0; architecture := arch;
     cpu_meets_minimum := false; cpu_meets_recommended := false |}.

(** [get_memory_info], lines 186-191: the fields are rounded, the flags
    compare the unrounded total. *)
Definition get_memory_info (total_gb available_gb : Q) : MemoryInfo :=
  {| mem_total_gb := round2 total_gb;
     mem_available_gb := round2 available_gb;
     mem_meets_minimum := fge total_gb MIN_RAM_GB;
     mem_meets_recommended := fge total_gb RECOMMENDED_RAM_GB |}.

(** [get_memory_info], exception branch (lines 193-200).  Python stores
    the int [0] in both sizes; the model's sizes are rationals, so this is
    the number 0: equal in value ([0 == 0.0]), but where Python's [str] and
    [json.dump] write [0], the model's float formatting writes a float. *)
Definition memory_info_fallback : MemoryInfo :=
  {| mem_total_gb := 0; mem_available_gb := 0;
     mem_meets_minimum := false; mem_meets_recommended := false |}.

(** The quantization choice of [get_gpu_info], lines 242-250. *)
Definition recommend_quantization (vram : Q) : string :=
  if fge vram OPTIMAL_VRAM_GB then "Q6_K or Q8_0 (full GPU offload)"
  else if fge vram RECOMMENDED_VRAM_GB then "Q5_K_M (full GPU offload)"
  else if fge vram MIN_VRAM_GB then "Q4_K_M (partial GPU offload)"
  else "Q4_K_M (CPU-heavy, limited GPU)".

(** [get_gpu_info] when [nvidia-smi] answered: VRAM in MiB as reported. *)
Definition get_gpu_info (name_ : string) (vram_mb : Q)
  (driver cuda cc : string) : GPUInfo :=
  let v := round2 (vram_mb / 1024) in
  {| name := name_; vram_gb := v; cuda_version := cuda;
     driver_version := driver; compute_capability := cc;
     is_available := true;
     recommended_quantization := recommend_quantization v |}.

(** [get_storage_info], lines 301-306. *)
Definition get_storage_info (total_gb available_gb : Q) (fs : string)
  : StorageInfo :=
  {| sto_total_gb := round2 total_gb;
     sto_available_gb := round2 available_gb;
     sto_meets_minimum := fge available_gb MIN_STORAGE_GB;
     filesystem := fs |}.

(** ** Messages of [validate]

    One constructor per [append] site of [validate] (lines 329-357); the
    arguments are the values interpolated into the f-string. *)
Inductive Msg :=
| W_cpu_cores (c : Z)
| R_cpu_upgrade
| R_cpu_cores (c : Z)
| W_ram (t : Q)
| R_ram_critical
| R_ram (t : Q)
| W_no_gpu
| R_add_gpu
| W_gpu_vram (v : Q)
| R_gpu_hybrid
| R_gpu_excellent (v : Q)
| W_storage (a : Q)
| R_storage_free.

(** The accumulated [warnings] and [recommendations] lists. *)
Record Acc := mkAcc { acc_warnings : list Msg; acc_recs : list Msg }.

Definition acc0 : Acc := mkAcc [] [].
Definition warn (m : Msg) (a : Acc) : Acc :=
  mkAcc (acc_warnings a ++ [m]) (acc_recs a).
Definition recommend (m : Msg) (a : Acc) : Acc :=
  mkAcc (acc_warnings a) (acc_recs a ++ [m]).

(** # Evaluate CPU *)
Definition eval_cpu (c : CPUInfo) (a : Acc) : Acc :=
  if negb (cpu_meets_minimum c) then
    recommend R_cpu_upgrade (warn (W_cpu_cores (cores c)) a)
  else if negb (cpu_meets_recommended c) then
    recommend (R_cpu_cores (cores c)) a
  else a.

(** # Evaluate Memory *)
Definition eval_memory (m : MemoryInfo) (a : Acc) : Acc :=
  if negb (mem_meets_minimum m) then
    recommend R_ram_critical (warn (W_ram (mem_total_gb m)) a)
  else if negb (mem_meets_recommended m) then
    recommend (R_ram (mem_total_gb m)) a
  else a.

(** # Evaluate GPU *)
Definition eval_gpu (g : option GPUInfo) (a : Acc) : Acc :=
  match g with
  | None => recommend R_add_gpu (warn W_no_gpu a)
  | Some g =>
      if flt (vram_gb g) MIN_VRAM_GB then
        recommend R_gpu_hybrid (warn (W_gpu_vram (vram_gb g)) a)
      else if fge (vram_gb g) OPTIMAL_VRAM_GB then
        recommend (R_gpu_excellent (vram_gb g)) a
      else a
  end.

(** # Evaluate Storage *)
Definition eval_storage (s : StorageInfo) (a : Acc) : Acc :=
  if negb (sto_meets_minimum s) then
    recommend R_storage_free (warn (W_storage (sto_available_gb s)) a)
  else a.

Definition evaluate (c : CPUInfo) (m : MemoryInfo) (g : option GPUInfo)
  (s : StorageInfo) : Acc :=
  eval_storage s (eval_gpu g (eval_memory m (eval_cpu c acc0))).

(** [critical_failures], lines 360-364, and [any]. *)
Definition critical_failures (c : CPUInfo) (m : MemoryInfo) (s : StorageInfo)
  : list bool :=
  [negb (mem_meets_minimum m); negb (sto_meets_minimum s);
   negb (cpu_meets_minimum c)].

Definition any (l : list bool) : bool := existsb (fun b => b) l.

Definition status_of (crit : list bool) (ws : list string) : string :=
  if any crit then "FAILED"
  else match ws with
       | [] => "PASSED"
       | _ :: _ => "PASSED_WITH_WARNINGS"
       end.

(** ** The structured form: [dataclasses.asdict] into a JSON value *)

Inductive json :=
| JNull
| JBool (b : bool)
| JInt (z : Z)
| JFloat (q : Q)
| JStr (s : string)
| JList (l : list json)
| JDict (l : list (string * json)).

Definition cpu_asdict (c : CPUInfo) : json :=
  JDict [("model", JStr (model c)); ("cores", JInt (cores c));
         ("threads", JInt (threads c));
         ("architecture", JStr (architecture c));
         ("meets_minimum", JBool (cpu_meets_minimum c));
         ("meets_recommended", JBool (cpu_meets_recommended c))].

Definition memory_asdict (m : MemoryInfo) : json :=
  JDict [("total_gb", JFloat (mem_total_gb m));
         ("available_gb", JFloat (mem_available_gb m));
         ("meets_minimum", JBool (mem_meets_minimum m));
         ("meets_recommended", JBool (mem_meets_recommended m))].

Definition gpu_asdict (g : GPUInfo) : json :=
  JDict [("name", JStr (name g)); ("vram_gb", JFloat (vram_gb g));
         ("cuda_version", JStr (cuda_version g));
         ("driver_version", JStr (driver_version g));
         ("compute_capability", JStr (compute_capability g));
         ("is_available", JBool (is_available g));
         ("recommended_quantization", JStr (recommended_quantization g))].

Definition storage_asdict (s : StorageInfo) : json :=
  JDict [("total_gb", JFloat (sto_total_gb s));
         ("available_gb", JFloat (sto_available_gb s));
         ("meets_minimum", JBool (sto_meets_minimum s));
         ("filesystem", JStr (filesystem s))].

(** [asdict(report)]: nested dataclasses become dicts in field order,
    [None] becomes [null]. *)
Definition report_asdict (r : SystemReport) : json :=
  JDict [("cpu", cpu_asdict (cpu r));
         ("memory", memory_asdict (memory r));
         ("gpu", match gpu r with None => JNull | Some g => gpu_asdict g end);
         ("storage", storage_asdict (storage r));
         ("overall_status", JStr (overall_status r));
         ("recommendations", JList (map JStr (recommendations r)));
         ("warnings", JList (map JStr (warnings r)));
         ("timestamp", JStr (timestamp r))].

(** ** Reading the structured form back

    Field access by key on the loaded document, as the tests do
    ([loaded_data['cpu']['cores']], [data['gpu']['vram_gb']], ...). *)

Definition obind {A B} (o : option A) (f : A -> option B) : option B :=
  match o with Some a => f a | None => None end.

Notation "'let?' x ':=' a 'in' b" := (obind a (fun x => b))
  (at level 200, x name, a at level 100, b at level 200).

Fixpoint lookup (k : string) (l : list (string * json)) : option json :=
  match l with
  | [] => None
  | (k', v) :: t => if String.eqb k k' then Some v else lookup k t
  end.

Definition field (j : json) (k : string) : option json :=
  match j with JDict l => lookup k l | _ => None end.

Definition get_str (j : json) (k : string) : option string :=
  match field j k with Some (JStr s) => Some s | _ => None end.
Definition get_int (j : json) (k : string) : option Z :=
  match field j k with Some (JInt z) => Some z | _ => None end.
Definition get_float (j : json) (k : string) : option Q :=
  match field j k with Some (JFloat q) => Some q | _ => None end.
Definition get_bool (j : json) (k : string) : option bool :=
  match field j k with Some (JBool b) => Some b | _ => None end.

Fixpoint str_list (l : list json) : option (list string) :=
  match l with
  | [] => Some []
  | JStr s :: t => let? r := str_list t in Some (s :: r)
  | _ => None
  end.

Definition get_str_list (j : json) (k : string) : option (list string) :=
  match field j k with Some (JList l) => str_list l | _ => None end.

Definition cpu_of_json (j : json) : option CPUInfo :=
  let? mo := get_str j "model" in
  let? co := get_int j "cores" in
  let? th := get_int j "threads" in
  let? ar := get_str j "architecture" in
  let? mi := get_bool j "meets_minimum" in
  let? re := get_bool j "meets_recommended" in
  Some (mkCPUInfo mo co th ar mi re).

Definition memory_of_json (j : json) : option MemoryInfo :=
  let? t := get_float j "total_gb" in
  let? a := get_float j "available_gb" in
  let? mi := get_bool j "meets_minimum" in
  let? re := get_bool j "meets_recommended" in
  Some (mkMemoryInfo t a mi re).

Definition gpu_of_json (j : json) : option GPUInfo :=
  let? n := get_str j "name" in
  let? v := get_float j "vram_gb" in
  let? cu := get_str j "cuda_version" in
  let? dr := get_str j "driver_version" in
  let? cc := get_str j "compute_capability" in
  let? av := get_bool j "is_available" in
  let? qu := get_str j "recommended_quantization" in
  Some (mkGPUInfo n v cu dr cc av qu).

Definition storage_of_json (j : json) : option StorageInfo :=
  let? t := get_float j "total_gb" in
  let? a := get_float j "available_gb" in
  let? mi := get_bool j "meets_minimum" in
  let? fs := get_str j "filesystem" in
  Some (mkStorageInfo t a mi fs).

Definition opt_gpu_of_json (j : json) : option (option GPUInfo) :=
  match j with
  | JNull => Some None
  | _ => let? g := gpu_of_json j in Some (Some g)
  end.

Definition report_of_json (j : json) : option SystemReport :=
  let? c := obind (field j "cpu") cpu_of_json in
  let? m := obind (field j "memory") memory_of_json in
  let? g := obind (field j "gpu") opt_gpu_of_json in
  let? s := obind (field j "storage") storage_of_json in
  let? st := get_str j "overall_status" in
  let? rs := get_str_list j "recommendations" in
  let? ws := get_str_list j "warnings" in
  let? ts := get_str j "timestamp" in
  Some (mkSystemReport c m g s st rs ws ts).

(** ** Output file system and process outcome *)

Definition FS := string -> option string.

Inductive OSError := PermissionDenied | NoSpaceLeft | IsADirectory.

(** Where the environment makes the file write fail. *)
Inductive Fault :=
| NoFault
| OpenFails (e : OSError)
| WriteFailsAfter (n : nat) (e : OSError).

Definition fs_set (fs : FS) (p v : string) : FS :=
  fun q => if String.eqb q p then Some v else fs q.

(** [output_file.open('w')]: creates the file or truncates it. *)
Definition open_w (fs : FS) (p : string) : FS := fs_set fs p "".

(** [f.write(chunk)] on an opened file. *)
Definition write_chunk (fs : FS) (p text : string) : FS :=
  fs_set fs p (match fs p with Some old => old ++ text | None => text end).

Inductive Outcome := Exit (code : Z) | Uncaught (e : OSError).

Record Args := mkArgs { target_dir : string; output : string; quiet : bool }.

(** [sys.exit] codes of [main], lines 499-505. *)
Definition exit_code (status : string) : Z :=
  if String.eqb status "FAILED" then 1
  else if String.eqb status "PASSED_WITH_WARNINGS" then 0
  else 0.

Section Formatting.

(** Python's [str] of an int and of a float (the float [repr], which
    [json] also uses), and the JSON encoding of a string. *)
Variable str_int : Z -> string.
Variable str_float : Q -> string.
Variable json_quote : string -> string.

(** The f-strings of [validate]. *)
Definition render (m : Msg) : string :=
  match m with
  | W_cpu_cores c => "CPU has only " ++ str_int c ++ " cores (minimum: "
                       ++ str_int MIN_CPU_CORES ++ ")"
  | R_cpu_upgrade =>
      "Upgrade to a CPU with at least 8 cores for acceptable performance"
  | R_cpu_cores c => "CPU has " ++ str_int c
                       ++ " cores. 12+ cores recommended for optimal performance"
  | W_ram t => "RAM is " ++ str_float t ++ "GB (minimum: "
                 ++ str_int MIN_RAM_GB ++ "GB)"
  | R_ram_critical => "CRITICAL: Upgrade RAM to at least 32GB to run 70B model"
  | R_ram t => "RAM is " ++ str_float t
                 ++ "GB. 40GB+ recommended for Q5_K_M or higher"
  | W_no_gpu =>
      "No NVIDIA GPU detected - will use CPU-only inference (very slow)"
  | R_add_gpu => "Add NVIDIA GPU with 24GB+ VRAM for 10-20x speedup"
  | W_gpu_vram v => "GPU VRAM is " ++ str_float v ++ "GB (recommended: "
                      ++ str_int RECOMMENDED_VRAM_GB ++ "GB+)"
  | R_gpu_hybrid =>
      "GPU will be underutilized. Consider hybrid CPU/GPU inference"
  | R_gpu_excellent v => "Excellent! " ++ str_float v
                           ++ "GB VRAM enables Q6_K or Q8_0 quantization"
  | W_storage a => "Only " ++ str_float a ++ "GB available (minimum: "
                     ++ str_int MIN_STORAGE_GB ++ "GB)"
  | R_storage_free => "Free up disk space or use a larger drive"
  end.

(** [SystemValidator.validate] on the four probe results; the timestamp
    is [datetime.utcnow().isoformat()]. *)
Definition validate (c : CPUInfo) (m : MemoryInfo) (g : option GPUInfo)
  (s : StorageInfo) (ts : string) : SystemReport :=
  let a := evaluate c m g s in
  let ws := map render (acc_warnings a) in
  let rs := map render (acc_recs a) in
  mkSystemReport c m g s (status_of (critical_failures c m s) ws) rs ws ts.

Fixpoint spaces (n : nat) : string :=
  match n with O => "" | S k => String " "%char (spaces k) end.

(** Newline plus the [indent=2] indentation of a nesting level. *)
Definition nl (lvl : nat) : string :=
  String (ascii_of_nat 10) (spaces (2 * lvl)).

(** [json.dump(report_dict, f, indent=2)]: the text of the document. *)
Fixpoint dump (lvl : nat) (j : json) {struct j} : string :=
  match j with
  | JNull => "null"
  | JBool b => if b then "true" else "false"
  | JInt z => str_int z
  | JFloat q => str_float q
  | JStr s => json_quote s
  | JList [] => "[]"
  | JList l =>
      "[" ++ nl (S lvl)
        ++ (fix items (l : list json) : string :=
              match l with
              | [] => ""
              | [x] => dump (S lvl) x
              | x :: t => dump (S lvl) x ++ "," ++ nl (S lvl) ++ items t
              end) l
        ++ nl lvl ++ "]"
  | JDict [] => "{}"
  | JDict l =>
      "{" ++ nl (S lvl)
        ++ (fix items (l : list (string * json)) : string :=
              match l with
              | [] => ""
              | [(k, x)] => json_quote k ++ ": " ++ dump (S lvl) x
              | (k, x) :: t => json_quote k ++ ": " ++ dump (S lvl) x
                                 ++ "," ++ nl (S lvl) ++ items t
              end) l
        ++ nl lvl ++ "}"
  end.

(** [SystemValidator.save_report]: open for writing (truncating), then
    [json.dump] writes the document; the environment may refuse the open
    or stop accepting data after [n] characters.  No handler: the error
    is returned to the caller. *)
Definition save_report (fs : FS) (output_path : string) (r : SystemReport)
  (fault : Fault) : FS * option OSError :=
  let text := dump 0 (report_asdict r) in
  match fault with
  | OpenFails e => (fs, Some e)
  | NoFault => (write_chunk (open_w fs output_path) output_path text, None)
  | WriteFailsAfter n e =>
      (write_chunk (open_w fs output_path) output_path (substring 0 n text),
       Some e)
  end.

(** [main] after argument parsing: validate, (print), save, exit.  An
    exception from [save_report] is not caught and ends the process. *)
Definition main_run (args : Args) (c : CPUInfo) (m : MemoryInfo)
  (g : option GPUInfo) (s : StorageInfo) (ts : string) (fault : Fault)
  (fs : FS) : FS * Outcome :=
  let report := validate c m g s ts in
  let (fs', err) := save_report fs (output args) report fault in
  match err with
  | Some e => (fs', Uncaught e)
  | None => (fs', Exit (exit_code (overall_status report)))
  end.

End Formatting.

(** ** Vocabulary of the properties *)

Inductive Resource := RCPU | RMemory | RGPU | RStorage.

Definition resource_of (m : Msg) : Resource :=
  match m with
  | W_cpu_cores _ | R_cpu_upgrade | R_cpu_cores _ => RCPU
  | W_ram _ | R_ram_critical | R_ram _ => RMemory
  | W_no_gpu | R_add_gpu | W_gpu_vram _ | R_gpu_hybrid
  | R_gpu_excellent _ => RGPU
  | W_storage _ | R_storage_free => RStorage
  end.

Definition resource_rank (r : Resource) : nat :=
  match r with RCPU => 0 | RMemory => 1 | RGPU => 2 | RStorage => 3 end.

Definition resource_eqb (r1 r2 : Resource) : bool :=
  Nat.eqb (resource_rank r1) (resource_rank r2).

Fixpoint ordered_by_resource (l : list Msg) : bool :=
  match l with
  | x :: ((y :: _) as t) =>
      (resource_rank (resource_of x) <=? resource_rank (resource_of y))%nat
      && ordered_by_resource t
  | _ => true
  end.

Definition msgs_for (r : Resource) (l : list Msg) : list Msg :=
  filter (fun m => resource_eqb (resource_of m) r) l.

(** Precision order of the four quantization recommendations. *)
Definition quant_precision (s : string) : nat :=
  if String.eqb s "Q6_K or Q8_0 (full GPU offload)" then 3
  else if String.eqb s "Q5_K_M (full GPU offload)" then 2
  else if String.eqb s "Q4_K_M (partial GPU offload)" then 1
  else 0.

(** [needle in haystack] for strings. *)
Definition str_contains (needle hay : string) : bool :=
  match String.index 0 needle hay with Some _ => true | None => false end.

(** ** Concrete formatting primitives for evaluating the model

    [py_str_int] is Python's [str] of an int; [py_repr_2dp] is the float
    [repr] of a value with at most two decimals (what [round(x, 2)] leaves);
    [py_json_quote] is [json]'s string encoding for printable ASCII. *)

Definition digit (d : Z) : ascii := ascii_of_nat (48 + Z.to_nat d).

Fixpoint nat_digits (fuel : nat) (n : Z) (acc : string) : string :=
  match fuel with
  | O => acc
  | S f =>
      let acc' := String (digit (n mod 10)) acc in
      if (n <? 10)%Z then acc' else nat_digits f (n / 10) acc'
  end.

Definition py_str_int (z : Z) : string :=
  if (z <? 0)%Z then "-" ++ nat_digits 64 (- z) ""
  else nat_digits 64 z "".

Definition py_repr_2dp (q : Q) : string :=
  let k := (Qnum q * 100 / Zpos (Qden q))%Z in
  let sign := if (k <? 0)%Z then "-" else "" in
  let a := Z.abs k in
  let i := (a / 100)%Z in
  let f := (a mod 100)%Z in
  sign ++ py_str_int i ++ "."
       ++ (if (f =? 0)%Z then "0"
           else if (f mod 10 =? 0)%Z then py_str_int (f / 10)
           else String (digit (f / 10)) (String (digit (f mod 10)) "")).

Definition dquote : ascii := ascii_of_nat 34.
Definition bslash : ascii := ascii_of_nat 92.

Fixpoint json_escape (s : string) : string :=
  match s with
  | EmptyString => EmptyString
  | String ch t =>
      if Ascii.eqb ch dquote || Ascii.eqb ch bslash
      then String bslash (String ch (json_escape t))
      else String ch (json_escape t)
  end.

Definition py_json_quote (s : string) : string :=
  String dquote (json_escape s ++ String dquote "").

(** The scenario of the test [test_validate_no_gpu_warning]: 8 cores,
    32 GB RAM with 28 GB available, no GPU, 500 GB disk with 200 GB free. *)
Definition scenario_cpu : CPUInfo := get_cpu_info "Test CPU" 8 16 "x86_64".
Definition scenario_memory : MemoryInfo := get_memory_info 32 28.
Definition scenario_storage : StorageInfo := get_storage_info 500 200 "ext4".
Definition scenario_args : Args :=
  mkArgs "." "system_validation_report.json" false.
Definition scenario_ts : string := "2025-01-01T00:00:00".

(** An output path that already holds an earlier report. *)
Definition fs_with_old_report : FS :=
  fun p => if String.eqb p "system_validation_report.json"
           then Some "{}" else None.

(** ** Python string primitives used by the probes (ASCII strings) *)

(** [str.isspace] on an ASCII character: \t \n \v \f \r, \x1c-\x1f, space. *)
Definition is_space (ch : ascii) : bool :=
  let n := nat_of_ascii ch in
  (Nat.leb 9 n && Nat.leb n 13) || (Nat.leb 28 n && Nat.leb n 32).

Fixpoint srev_app (s acc : string) : string :=
  match s with
  | EmptyString => acc
  | String ch t => srev_app t (String ch acc)
  end.

Definition srev (s : string) : string := srev_app s EmptyString.

Fixpoint lstrip (s : string) : string :=
  match s with
  | EmptyString => EmptyString
  | String ch t => if is_space ch then lstrip t else s
  end.

(** [s.strip()] *)
Definition py_strip (s : string) : string := srev (lstrip (srev (lstrip s))).

Fixpoint starts_with (p s : string) : bool :=
  match p, s with
  | EmptyString, _ => true
  | String a p', String b s' => Ascii.eqb a b && starts_with p' s'
  | _, _ => false
  end.

(** [p in s] *)
Fixpoint py_in (p s : string) : bool :=
  starts_with p s
  || match s with EmptyString => false | String _ t => py_in p t end.

(** [s.split(sep)] for a non-empty [sep]: [cur] is the current piece,
    reversed; [skip] counts the separator characters still to drop. *)
Fixpoint split_go (sep s : string) (skip : nat) (cur : string)
  : list string :=
  match s with
  | EmptyString => [srev cur]
  | String ch t =>
      match skip with
      | S k => split_go sep t k cur
      | O => if starts_with sep s
             then srev cur :: split_go sep t (String.length sep - 1)%nat ""
             else split_go sep t 0 (String ch cur)
      end
  end.

Definition py_split (s sep : string) : list string := split_go sep s 0 "".

(** [s.split()]: runs of whitespace separate, empty pieces are dropped. *)
Fixpoint split_ws_go (s cur : string) : list string :=
  match s with
  | EmptyString =>
      match cur with EmptyString => [] | _ => [srev cur] end
  | String ch t =>
      if is_space ch then
        match cur with
        | EmptyString => split_ws_go t ""
        | _ => srev cur :: split_ws_go t ""
        end
      else split_ws_go t (String ch cur)
  end.

Definition py_split_ws (s : string) : list string := split_ws_go s "".

Definition newline : string := String (ascii_of_nat 10) "".

(** ** Exceptions, subprocess and file results *)

Inductive Exn :=
| CalledProcessError
| FileNotFoundError
| PermissionError
| IndexError
| ValueError.

Inductive Res (A : Type) := Ok (a : A) | Err (e : Exn).
Arguments Ok {A} a.
Arguments Err {A} e.

Definition rbind {A B} (r : Res A) (f : A -> Res B) : Res B :=
  match r with Ok a => f a | Err e => Err e end.

Notation "'let!' x ':=' a 'in' b" := (rbind a (fun x => b))
  (at level 200, x name, a at level 100, b at level 200).

(** What a [subprocess.check_output]/[run(check=True)] call or a file read
    gives: its text, or the exception it raises. *)
Inductive Output := Completed (text : string) | Raised (e : Exn).

Definition run_check (o : Output) : Res string :=
  match o with Completed t => Ok t | Raised e => Err e end.

(** [l[i]] *)
Definition py_index {A} (l : list A) (i : nat) : Res A :=
  match nth_error l i with Some x => Ok x | None => Err IndexError end.

(** [get_storage_info], exception branch (lines 308-315); the int [0]
    sizes as in [memory_info_fallback]. *)
Definition storage_info_fallback : StorageInfo :=
  {| sto_total_gb := 0; sto_available_gb := 0; sto_meets_minimum := false;
     filesystem := "Unknown" |}.

(** Decimal parsing for evaluating the probes: [int] of an optionally
    signed digit string and [float] of [digits] or [digits.digits], after
    [strip]; other spellings Python accepts (underscores, exponents, ...)
    are rejected here. *)
Definition digit_val (ch : ascii) : option Z :=
  let n := nat_of_ascii ch in
  if Nat.leb 48 n && Nat.leb n 57 then Some (Z.of_nat (n - 48)) else None.

Fixpoint digits_go (s : string) (acc : Z) (len : nat) : option (Z * nat) :=
  match s with
  | EmptyString => Some (acc, len)
  | String ch t =>
      match digit_val ch with
      | Some d => digits_go t (acc * 10 + d)%Z (S len)
      | None => None
      end
  end.

Definition parse_digits (s : string) : option Z :=
  match s with
  | EmptyString => None
  | _ => option_map fst (digits_go s 0%Z O)
  end.

Definition decimal_int (s : string) : option Z :=
  match py_strip s with
  | String "-"%char t => option_map Z.opp (parse_digits t)
  | t => parse_digits t
  end.

Definition decimal_float (s : string) : option Q :=
  match py_split (py_strip s) "." with
  | [i] => option_map inject_Z (parse_digits i)
  | [i; f] =>
      match parse_digits i, digits_go f 0%Z O with
      | Some zi, Some (zf, len) =>
          if Nat.eqb len 0 then None
          else Some (inject_Z zi + Qmake zf (Pos.of_nat (10 ^ len)))%Q
      | _, _ => None
      end
  | _ => None
  end.

Section Probes.

(** Python's [int(s)] and [float(s)]: [None] is the [ValueError]. *)
Variable py_int : string -> option Z.
Variable py_float : string -> option Q.

Definition parse_int (s : string) : Res Z :=
  match py_int s with Some z => Ok z | None => Err ValueError end.
Definition parse_float (s : string) : Res Q :=
  match py_float s with Some q => Ok q | None => Err ValueError end.

(** [get_cpu_info], Linux branch (lines 103-119, 137-144): the model name
    from the first [model name] line of /proc/cpuinfo, the core count from
    [nproc --all], used for both cores and threads. *)
Definition cpu_probe_linux (cpuinfo nproc : Output) (arch : string)
  : Res CPUInfo :=
  let! text := run_check cpuinfo in
  let model_lines := filter (py_in "model name") (py_split text newline) in
  let! model_ := match model_lines with
                 | [] => Ok "Unknown"
                 | l :: _ => let! p := py_index (py_split l ":") 1 in
                             Ok (py_strip p)
                 end in
  let! out := run_check nproc in
  let! n := parse_int (py_strip out) in
  Ok (get_cpu_info model_ n n arch).

(** [get_cpu_info] with its handler (lines 146-155): the exception is
    logged to stderr and a zeroed record returned. *)
Definition get_cpu_info_linux (cpuinfo nproc : Output) (arch : string)
  : CPUInfo * list Exn :=
  match cpu_probe_linux cpuinfo nproc arch with
  | Ok c => (c, [])
  | Err e => (cpu_info_fallback arch, [e])
  end.

(** [get_memory_info], Linux branch (lines 160-168, 186-191). *)
Definition memory_probe_linux (meminfo : Output) : Res MemoryInfo :=
  let! text := run_check meminfo in
  let ls := py_split text newline in
  let! lt := py_index (filter (py_in "MemTotal") ls) 0 in
  let! tt := py_index (py_split_ws lt) 1 in
  let! total_kb := parse_int tt in
  let! la := py_index (filter (py_in "MemAvailable") ls) 0 in
  let! ta := py_index (py_split_ws la) 1 in
  let! available_kb := parse_int ta in
  Ok (get_memory_info (inject_Z total_kb / inject_Z (1024 ^ 2))
                      (inject_Z available_kb / inject_Z (1024 ^ 2))).

Definition get_memory_info_linux (meminfo : Output) : MemoryInfo * list Exn :=
  match memory_probe_linux meminfo with
  | Ok m => (m, [])
  | Err e => (memory_info_fallback, [e])
  end.

(** [get_gpu_info] (lines 204-260): three [nvidia-smi] queries. *)
Definition gpu_probe (q1 q2 q3 : Output) : Res GPUInfo :=
  let! out1 := run_check q1 in
  let gpu_data := py_split (py_strip out1) ", " in
  let! name_ := py_index gpu_data 0 in
  let! f1 := py_index gpu_data 1 in
  let! vram_mb := parse_float f1 in
  let! driver := py_index gpu_data 2 in
  let! out2 := run_check q2 in
  let cuda_lines := filter (py_in "CUDA Version") (py_split out2 newline) in
  let! cuda := match cuda_lines with
               | [] => Ok "Unknown"
               | l :: _ =>
                   let! p := py_index (py_split l "CUDA Version:") 1 in
                   py_index (py_split_ws (py_strip p)) 0
               end in
  let cc := match q3 with Completed o => py_strip o | Raised _ => "Unknown" end in
  Ok (get_gpu_info name_ vram_mb driver cuda cc).

(** The handlers of lines 262-267: a [CalledProcessError] is silent, any
    other exception is logged; both give [None]. *)
Definition get_gpu_info_py (q1 q2 q3 : Output) : option GPUInfo * list Exn :=
  match gpu_probe q1 q2 q3 with
  | Ok g => (Some g, [])
  | Err CalledProcessError => (None, [])
  | Err e => (None, [e])
  end.

(** The filesystem label from [df -T] (lines 288-297): the second field of
    the second line, ["Unknown"] on empty output or any exception. *)
Definition df_filesystem (df : Output) : string :=
  match df with
  | Raised _ => "Unknown"
  | Completed EmptyString => "Unknown"
  | Completed o =>
      match (let! l := py_index (py_split o newline) 1 in
             py_index (py_split_ws l) 1) with
      | Ok f => f
      | Err _ => "Unknown"
      end
  end.

(** [os.statvfs] fields used: [f_blocks], [f_bavail], [f_frsize]. *)
Record Statvfs := mkStatvfs { f_blocks : Z; f_bavail : Z; f_frsize : Z }.

(** [get_storage_info], Linux branch (lines 283-306). *)
Definition storage_probe_linux (st : Res Statvfs) (df : Output)
  : Res StorageInfo :=
  let! v := st in
  let total_gb := (inject_Z (f_blocks v * f_frsize v) / inject_Z (1024 ^ 3))%Q in
  let available_gb :=
    (inject_Z (f_bavail v * f_frsize v) / inject_Z (1024 ^ 3))%Q in
  Ok (get_storage_info total_gb available_gb (df_filesystem df)).

Definition get_storage_info_linux (st : Res Statvfs) (df : Output)
  : StorageInfo * list Exn :=
  match storage_probe_linux st df with
  | Ok s => (s, [])
  | Err e => (storage_info_fallback, [e])
  end.

End Probes.

(** ** [print_report], [main] with its console output, a Linux run *)

Fixpoint bytes (l : list nat) : string :=
  match l with [] => EmptyString | b :: t => String (ascii_of_nat b) (bytes t) end.

(** The status marks of [print_report], byte for byte as in the source. *)
Definition mark_ok : string := bytes ([195; 162; 197; 147; 226; 128; 166]%nat).
Definition mark_fail : string := bytes ([195; 162; 197; 146]%nat).
Definition mark_warn : string :=
  bytes ([195; 162; 197; 161; 194; 160; 195; 175; 194; 184]%nat).
Definition mark_idea : string :=
  bytes ([195; 176; 197; 184; 226; 128; 153; 194; 161]%nat).

Fixpoint repeat_str (n : nat) (s : string) : string :=
  match n with O => EmptyString | S k => s ++ repeat_str k s end.

Definition rule70 : string := repeat_str 70%nat "=".

Definition fail_banner : string := mark_fail ++ " SYSTEM VALIDATION FAILED".

Section Reporting.

Variable str_int : Z -> string.
Variable str_float : Q -> string.
Variable json_quote : string -> string.
(** [Path.resolve()] of the output path. *)
Variable resolve : string -> string.
Variable py_int : string -> option Z.
Variable py_float : string -> option Q.

(** [SystemValidator.print_report] (lines 384-454): the arguments of its
    [print] calls, in order (each is followed by a newline). *)
Definition print_report (r : SystemReport) : list string :=
  let c := cpu r in let m := memory r in let s := storage r in
  [newline ++ rule70; "SYSTEM VALIDATION REPORT";
   "Strawberrylemonade-L3-70B-v1.1 Integration"; rule70;
   newline ++ "Timestamp: " ++ timestamp r;
   "Overall Status: " ++ overall_status r ++ newline;
   "CPU Information:";
   "  Model: " ++ model c;
   "  Cores: " ++ str_int (cores c) ++ " (Physical)";
   "  Threads: " ++ str_int (threads c) ++ " (Logical)";
   "  Architecture: " ++ architecture c;
   "  Status: " ++ (if cpu_meets_minimum c then mark_ok else mark_fail) ++ " "
     ++ (if cpu_meets_minimum c then "Meets minimum" else "Below minimum");
   newline ++ "Memory Information:";
   "  Total: " ++ str_float (mem_total_gb m) ++ "GB";
   "  Available: " ++ str_float (mem_available_gb m) ++ "GB";
   "  Status: " ++ (if mem_meets_minimum m then mark_ok else mark_fail) ++ " "
     ++ (if mem_meets_minimum m then "Meets minimum" else "Below minimum");
   newline ++ "GPU Information:"]
  ++ (match gpu r with
      | Some g =>
          ["  Name: " ++ name g;
           "  VRAM: " ++ str_float (vram_gb g) ++ "GB";
           "  CUDA Version: " ++ cuda_version g;
           "  Driver Version: " ++ driver_version g;
           "  Compute Capability: " ++ compute_capability g;
           "  Recommended Quantization: " ++ recommended_quantization g;
           "  Status: " ++ mark_ok ++ " GPU Available"]
      | None =>
          ["  Status: " ++ mark_warn ++ "  No NVIDIA GPU detected (CPU-only mode)"]
      end)
  ++ [newline ++ "Storage Information:";
      "  Total: " ++ str_float (sto_total_gb s) ++ "GB";
      "  Available: " ++ str_float (sto_available_gb s) ++ "GB";
      "  Filesystem: " ++ filesystem s;
      "  Status: " ++ (if sto_meets_minimum s then mark_ok else mark_fail) ++ " "
        ++ (if sto_meets_minimum s then "Sufficient space"
            else "Insufficient space")]
  ++ (match warnings r with
      | [] => []
      | ws => (newline ++ mark_warn ++ "  WARNINGS:")
                :: map (fun w => "  - " ++ w) ws
      end)
  ++ (match recommendations r with
      | [] => []
      | rs => (newline ++ mark_idea ++ " RECOMMENDATIONS:")
                :: map (fun x => "  - " ++ x) rs
      end)
  ++ [newline ++ rule70]
  ++ (if String.eqb (overall_status r) "PASSED" then
        [mark_ok ++ " SYSTEM VALIDATION PASSED";
         "Your system meets all requirements for model deployment."]
      else if String.eqb (overall_status r) "PASSED_WITH_WARNINGS" then
        [mark_warn ++ "  SYSTEM VALIDATION PASSED WITH WARNINGS";
         "Your system meets minimum requirements but has limitations."]
      else
        [fail_banner;
         "Your system does not meet minimum requirements.";
         "Please address critical issues before proceeding."])
  ++ [rule70 ++ newline].

(** [main] with its console output: the report unless [--quiet], then the
    [save_report] confirmation once the file is written. *)
Definition main_io (args : Args) (c : CPUInfo) (m : MemoryInfo)
  (g : option GPUInfo) (s : StorageInfo) (ts : string) (fault : Fault)
  (fs : FS) : (FS * Outcome) * list string :=
  let report := validate str_int str_float c m g s ts in
  let out := if quiet args then [] else print_report report in
  let (fs', err) := save_report str_int str_float json_quote fs (output args)
                      report fault in
  match err with
  | Some e => ((fs', Uncaught e), out)
  | None => ((fs', Exit (exit_code (overall_status report))),
             (out ++ [("Report saved to: " ++ resolve (output args))%string])%list)
  end.

(** [validate] on a Linux machine: the four probes in order, then the
    evaluation; the second component is what the probes logged. *)
Definition validate_linux (cpuinfo nproc : Output) (arch : string)
  (meminfo : Output) (q1 q2 q3 : Output) (st : Res Statvfs) (df : Output)
  (ts : string) : SystemReport * list Exn :=
  let (c, e1) := get_cpu_info_linux py_int cpuinfo nproc arch in
  let (m, e2) := get_memory_info_linux py_int meminfo in
  let (g, e3) := get_gpu_info_py py_float q1 q2 q3 in
  let (s, e4) := get_storage_info_linux st df in
  (validate str_int str_float c m g s ts, (e1 ++ e2 ++ e3 ++ e4)%list).

End Reporting.

(** Probe outputs of the test suite (test_get_*_info_linux,
    test_get_gpu_info_nvidia_available). *)
Definition tab : string := String (ascii_of_nat 9) "".

Definition test_cpuinfo : string :=
  newline ++ "processor" ++ tab ++ ": 0" ++ newline
  ++ "model name" ++ tab ++ ": AMD Ryzen 7 7700X 8-Core Processor" ++ newline
  ++ "processor" ++ tab ++ ": 1" ++ newline
  ++ "model name" ++ tab ++ ": AMD Ryzen 7 7700X 8-Core Processor" ++ newline.

Definition test_nproc : string := "16" ++ newline.

Definition test_meminfo : string :=
  newline ++ "MemTotal:       32000000 kB" ++ newline
  ++ "MemAvailable:   28000000 kB" ++ newline.

Definition test_statvfs : Statvfs :=
  mkStatvfs (500 * 1024 ^ 3 / 4096) (200 * 1024 ^ 3 / 4096) 4096.

(** ** [json.load]: reading the saved report back

    A model of Python's JSON decoder on the document [json.dump] wrote:
    whitespace, literals, the [NUMBER_RE] number syntax, strings with
    their escapes, arrays and objects (members kept in order).  NaN and
    Infinity, and [\u] escapes beyond the 8-bit characters of [string],
    are not modelled (rejected). *)

(** JSON whitespace: space, \t, \n, \r. *)
Definition is_ws (ch : ascii) : bool :=
  let n := nat_of_ascii ch in
  Nat.eqb n 32 || Nat.eqb n 9 || Nat.eqb n 10 || Nat.eqb n 13.

Fixpoint skip_ws (s : string) : string :=
  match s with
  | EmptyString => EmptyString
  | String ch t => if is_ws ch then skip_ws t else s
  end.

Definition is_digit (ch : ascii) : bool :=
  let n := nat_of_ascii ch in Nat.leb 48 n && Nat.leb n 57.

Fixpoint span_digits (s : string) : string * string :=
  match s with
  | String ch t =>
      if is_digit ch then
        let (d, r) := span_digits t in (String ch d, r)
      else (EmptyString, s)
  | EmptyString => (EmptyString, EmptyString)
  end.

(** The pieces of [NUMBER_RE]: an optional minus, 0 or a non-zero digit
    and digits, an optional fraction, an optional exponent. *)
Definition opt_minus (s : string) : string * string :=
  match s with
  | String ch t => if Ascii.eqb ch "-"%char then ("-", t) else ("", s)
  | EmptyString => ("", s)
  end.

Definition int_part (s : string) : option (string * string) :=
  match s with
  | String ch t =>
      if Ascii.eqb ch "0"%char then Some ("0", t)
      else if is_digit ch then
        let (d, r) := span_digits t in Some (String ch d, r)
      else None
  | EmptyString => None
  end.

Definition frac_part (s : string) : string * string :=
  match s with
  | String dot (String ch t) =>
      if Ascii.eqb dot "."%char && is_digit ch then
        let (d, r) := span_digits t in (String dot (String ch d), r)
      else ("", s)
  | _ => ("", s)
  end.

Definition exp_sign (s : string) : string * string :=
  match s with
  | String ch t =>
      if Ascii.eqb ch "+"%char || Ascii.eqb ch "-"%char
      then (String ch EmptyString, t) else ("", s)
  | EmptyString => ("", s)
  end.

Definition exp_part (s : string) : string * string :=
  match s with
  | String e t =>
      if Ascii.eqb e "e"%char || Ascii.eqb e "E"%char then
        let (sg, t1) := exp_sign t in
        match t1 with
        | String ch t2 =>
            if is_digit ch then
              let (d, r) := span_digits t2 in (String e (sg ++ String ch d), r)
            else ("", s)
        | EmptyString => ("", s)
        end
      else ("", s)
  | EmptyString => ("", s)
  end.

(** The match of [NUMBER_RE] at the start of [s]: integer part with its
    sign, fraction, exponent, and what follows. *)
Definition scan_number (s : string)
  : option (string * string * string * string) :=
  let (m, s1) := opt_minus s in
  match int_part s1 with
  | None => None
  | Some (i, s2) =>
      let (f, s3) := frac_part s2 in
      let (e, s4) := exp_part s3 in
      Some (m ++ i, f, e, s4)
  end.

(** [t] is a whole JSON number without fraction or exponent (decoded by
    [int]), or a whole one with a fraction or an exponent (by [float]). *)
Definition json_int_literal (t : string) : bool :=
  match scan_number t with
  | Some (i, f, e, r) =>
      String.eqb f "" && String.eqb e "" && String.eqb r "" && String.eqb i t
  | None => false
  end.

Definition json_float_literal (t : string) : bool :=
  match scan_number t with
  | Some (i, f, e, r) =>
      negb (String.eqb (f ++ e) "") && String.eqb r ""
      && String.eqb (i ++ f ++ e) t
  | None => false
  end.

(** What follows a number token does not extend it. *)
Definition num_stop (s : string) : bool :=
  match s with
  | EmptyString => true
  | String ch _ =>
      negb (is_digit ch || Ascii.eqb ch "."%char || Ascii.eqb ch "e"%char
            || Ascii.eqb ch "E"%char || Ascii.eqb ch "+"%char
            || Ascii.eqb ch "-"%char)
  end.

(** [json]'s string encoding with [ensure_ascii=True] (the default of
    [json.dump]), a character of [string] being a code point below 256:
    the short escapes, [\u00xx] (lower-case hex) outside space..tilde. *)
Definition hex_digit (n : nat) : ascii :=
  if Nat.ltb n 10 then ascii_of_nat (48 + n)%nat else ascii_of_nat (87 + n)%nat.

Definition json_esc_char (ch : ascii) : string :=
  let n := nat_of_ascii ch in
  if Nat.eqb n 34 then String bslash (String dquote EmptyString)
  else if Nat.eqb n 92 then String bslash (String bslash EmptyString)
  else if Nat.eqb n 8 then String bslash "b"
  else if Nat.eqb n 12 then String bslash "f"
  else if Nat.eqb n 10 then String bslash "n"
  else if Nat.eqb n 13 then String bslash "r"
  else if Nat.eqb n 9 then String bslash "t"
  else if Nat.leb 32 n && Nat.leb n 126 then String ch EmptyString
  else String bslash ("u00" ++ String (hex_digit (Nat.div n 16))
                                  (String (hex_digit (Nat.modulo n 16)) EmptyString)).

Fixpoint json_escape_ascii (s : string) : string :=
  match s with
  | EmptyString => EmptyString
  | String ch t => json_esc_char ch ++ json_escape_ascii t
  end.

Definition json_str (s : string) : string :=
  String dquote (json_escape_ascii s ++ String dquote EmptyString).

(** The decoder's string scanner ([scanstring], strict mode), after the
    opening quote: the decoded text and what follows the closing quote. *)
Definition hex_val (ch : ascii) : option nat :=
  let n := nat_of_ascii ch in
  if Nat.leb 48 n && Nat.leb n 57 then Some (n - 48)%nat
  else if Nat.leb 97 n && Nat.leb n 102 then Some (n - 87)%nat
  else if Nat.leb 65 n && Nat.leb n 70 then Some (n - 55)%nat
  else None.

Definition simple_escape (e : ascii) : option ascii :=
  let n := nat_of_ascii e in
  if Nat.eqb n 34 then Some dquote
  else if Nat.eqb n 92 then Some bslash
  else if Nat.eqb n 47 then Some e
  else if Nat.eqb n 98 then Some (ascii_of_nat 8)
  else if Nat.eqb n 102 then Some (ascii_of_nat 12)
  else if Nat.eqb n 110 then Some (ascii_of_nat 10)
  else if Nat.eqb n 114 then Some (ascii_of_nat 13)
  else if Nat.eqb n 116 then Some (ascii_of_nat 9)
  else None.

Definition cons_res (ch : ascii) (r : option (string * string))
  : option (string * string) :=
  match r with Some (x, rest) => Some (String ch x, rest) | None => None end.

Fixpoint scan_string (s : string) : option (string * string) :=
  match s with
  | EmptyString => None
  | String ch t =>
      if Ascii.eqb ch dquote then Some (EmptyString, t)
      else if Ascii.eqb ch bslash then
        match t with
        | String e t1 =>
            if Ascii.eqb e "u"%char then
              match t1 with
              | String h1 (String h2 (String h3 (String h4 t2))) =>
                  match hex_val h1, hex_val h2, hex_val h3, hex_val h4 with
                  | Some a, Some b, Some c, Some d =>
                      let cp := (((a * 16 + b) * 16 + c) * 16 + d)%nat in
                      if Nat.ltb cp 256
                      then cons_res (ascii_of_nat cp) (scan_string t2)
                      else None
                  | _, _, _, _ => None
                  end
              | _ => None
              end
            else match simple_escape e with
                 | Some c => cons_res c (scan_string t1)
                 | None => None
                 end
        | EmptyString => None
        end
      else if Nat.ltb (nat_of_ascii ch) 32 then None
      else cons_res ch (scan_string t)
  end.

Fixpoint strip_prefix (p s : string) : option string :=
  match p, s with
  | EmptyString, _ => Some s
  | String a p', String b s' => if Ascii.eqb a b then strip_prefix p' s' else None
  | _, _ => None
  end.

Section Loading.

(** [int] and [float] as the decoder applies them to a number token. *)
Variable py_int : string -> option Z.
Variable py_float : string -> option Q.

Definition parse_number (s : string) : option (json * string) :=
  match scan_number s with
  | Some (i, f, e, r) =>
      if String.eqb f "" && String.eqb e "" then
        match py_int i with Some z => Some (JInt z, r) | None => None end
      else
        match py_float (i ++ f ++ e) with
        | Some q => Some (JFloat q, r)
        | None => None
        end
  | None => None
  end.

(** [scan_once], [JSONArray] and [JSONObject]; [fuel] bounds the
    recursion (the loader gives it the length of the text). *)
Fixpoint parse_value (fuel : nat) (s : string) {struct fuel}
  : option (json * string) :=
  match fuel with
  | O => None
  | S f =>
      match skip_ws s with
      | EmptyString => None
      | String ch t =>
          if Ascii.eqb ch "n"%char then
            match strip_prefix "ull" t with Some r => Some (JNull, r) | None => None end
          else if Ascii.eqb ch "t"%char then
            match strip_prefix "rue" t with
            | Some r => Some (JBool true, r) | None => None end
          else if Ascii.eqb ch "f"%char then
            match strip_prefix "alse" t with
            | Some r => Some (JBool false, r) | None => None end
          else if Ascii.eqb ch dquote then
            match scan_string t with Some (x, r) => Some (JStr x, r) | None => None end
          else if Ascii.eqb ch "["%char then
            match skip_ws t with
            | String c r =>
                if Ascii.eqb c "]"%char then Some (JList [], r)
                else match parse_elems f (skip_ws t) with
                     | Some (l, r') => Some (JList l, r')
                     | None => None
                     end
            | EmptyString => None
            end
          else if Ascii.eqb ch "{"%char then
            match skip_ws t with
            | String c r =>
                if Ascii.eqb c "}"%char then Some (JDict [], r)
                else match parse_members f (skip_ws t) with
                     | Some (l, r') => Some (JDict l, r')
                     | None => None
                     end
            | EmptyString => None
            end
          else parse_number (String ch t)
      end
  end
with parse_elems (fuel : nat) (s : string) {struct fuel}
  : option (list json * string) :=
  match fuel with
  | O => None
  | S f =>
      match parse_value f s with
      | None => None
      | Some (x, r) =>
          match skip_ws r with
          | String c r' =>
              if Ascii.eqb c ","%char then
                match parse_elems f r' with
                | Some (l, r'') => Some (x :: l, r'')
                | None => None
                end
              else if Ascii.eqb c "]"%char then Some ([x], r')
              else None
          | EmptyString => None
          end
      end
  end
with parse_members (fuel : nat) (s : string) {struct fuel}
  : option (list (string * json) * string) :=
  match fuel with
  | O => None
  | S f =>
      match skip_ws s with
      | String c t =>
          if Ascii.eqb c dquote then
            match scan_string t with
            | None => None
            | Some (k, r) =>
                match skip_ws r with
                | String c1 r1 =>
                    if Ascii.eqb c1 ":"%char then
                      match parse_value f r1 with
                      | None => None
                      | Some (v, r2) =>
                          match skip_ws r2 with
                          | String c2 r3 =>
                              if Ascii.eqb c2 ","%char then
                                match parse_members f r3 with
                                | Some (l, r4) => Some ((k, v) :: l, r4)
                                | None => None
                                end
                              else if Ascii.eqb c2 "}"%char then Some ([(k, v)], r3)
                              else None
                          | EmptyString => None
                          end
                      end
                    else None
                | EmptyString => None
                end
            end
          else None
      | EmptyString => None
      end
  end.

(** [json.load(f)]: one value, then only whitespace ("Extra data"
    otherwise). *)
Definition json_load (s : string) : option json :=
  match parse_value (S (String.length s)) s with
  | Some (j, r) => match skip_ws r with EmptyString => Some j | _ => None end
  | None => None
  end.

End Loading.

(** Induction on [json] through its lists. *)
Section JsonInd.
Variable P : json -> Prop.
Hypothesis HNull : P JNull.
Hypothesis HBool : forall b, P (JBool b).
Hypothesis HInt : forall z, P (JInt z).
Hypothesis HFloat : forall q, P (JFloat q).
Hypothesis HStr : forall s, P (JStr s).
Hypothesis HList : forall l, Forall P l -> P (JList l).
Hypothesis HDict : forall l, Forall (fun kv => P (snd kv)) l -> P (JDict l).

Fixpoint json_ind' (j : json) : P j :=
  match j with
  | JNull => HNull
  | JBool b => HBool b
  | JInt z => HInt z
  | JFloat q => HFloat q
  | JStr s => HStr s
  | JList l =>
      HList l ((fix go (l : list json) : Forall P l :=
                  match l with
                  | [] => @Forall_nil _ P
                  | x :: t => @Forall_cons _ P x t (json_ind' x) (go t)
                  end) l)
  | JDict l =>
      HDict l ((fix go (l : list (string * json))
                  : Forall (fun kv => P (snd kv)) l :=
                  match l with
                  | [] => @Forall_nil _ _
                  | (k, v) :: t =>
                      @Forall_cons _ (fun kv => P (snd kv)) (k, v) t
                        (json_ind' v) (go t)
                  end) l)
  end.
End JsonInd.

Section Tokens.

Variable str_int : Z -> string.
Variable str_float : Q -> string.
Variable py_int : string -> option Z.
Variable py_float : string -> option Q.

(** [str(z)] is a JSON integer that [int] reads back as [z]; [repr(q)] a
    JSON number with a fraction or exponent that [float] reads back. *)
Definition int_token_ok (z : Z) : Prop :=
  json_int_literal (str_int z) = true /\ py_int (str_int z) = Some z.
Definition float_token_ok (q : Q) : Prop :=
  json_float_literal (str_float q) = true /\ py_float (str_float q) = Some q.

Fixpoint json_ok (j : json) : Prop :=
  match j with
  | JInt z => int_token_ok z
  | JFloat q => float_token_ok q
  | JList l =>
      (fix go (l : list json) : Prop :=
         match l with [] => True | x :: t => json_ok x /\ go t end) l
  | JDict l =>
      (fix go (l : list (string * json)) : Prop :=
         match l with [] => True | (_, x) :: t => json_ok x /\ go t end) l
  | _ => True
  end.

End Tokens.

Fixpoint json_size (j : json) : nat :=
  match j with
  | JList l =>
      S ((fix go (l : list json) : nat :=
            match l with [] => O | x :: t => S (json_size x + go t) end) l)
  | JDict l =>
      S ((fix go (l : list (string * json)) : nat :=
            match l with [] => O | (_, x) :: t => S (json_size x + go t) end) l)
  | _ => 1%nat
  end.

Fixpoint json_sizes (l : list json) : nat :=
  match l with [] => O | x :: t => S (json_size x + json_sizes t) end.

Fixpoint json_sizes_kv (l : list (string * json)) : nat :=
  match l with [] => O | (_, x) :: t => S (json_size x + json_sizes_kv t) end.

(** The ints and the floats a report holds. *)
Definition report_ints (r : SystemReport) : list Z :=
  [cores (cpu r); threads (cpu r)].

Definition report_floats (r : SystemReport) : list Q :=
  [mem_total_gb (memory r); mem_available_gb (memory r)]
  ++ match gpu r with Some g => [vram_gb g] | None => [] end
  ++ [sto_total_gb (storage r); sto_available_gb (storage r)].

(** The items of a non-empty array and the members of a non-empty object
    as [dump] writes them. *)
Definition dump_items (si : Z -> string) (sf : Q -> string)
  (jq : string -> string) (lvl : nat) : list json -> string :=
  fix items (l : list json) : string :=
    match l with
    | [] => ""
    | [x] => dump si sf jq lvl x
    | x :: t => dump si sf jq lvl x ++ "," ++ nl lvl ++ items t
    end.

Definition dump_members (si : Z -> string) (sf : Q -> string)
  (jq : string -> string) (lvl : nat) : list (string * json) -> string :=
  fix items (l : list (string * json)) : string :=
    match l with
    | [] => ""
    | [(k, x)] => jq k ++ ": " ++ dump si sf jq lvl x
    | (k, x) :: t => jq k ++ ": " ++ dump si sf jq lvl x
                       ++ "," ++ nl lvl ++ items t
    end.

(** [float] of a decimal, as a number of hundredths (the form [round2]
    gives): for evaluating the loader on reports. *)
Definition py_float_2dp (s : string) : option Q :=
  match decimal_float s with
  | Some q => Some (Qmake (Qnum q * 100 / Zpos (Qden q)) 100)
  | None => None
  end.

(** ** Helper lemmas *)

Lemma fge_true (x : Q) (n : Z) : fge x n = true <-> (inject_Z n <= x)%Q.
Proof. unfold fge. apply Qle_bool_iff. Qed.

Lemma fge_false (x : Q) (n : Z) : fge x n = false <-> (x < inject_Z n)%Q.
Proof.
  split; intro H.
  - apply Qnot_le_lt. intro Hle. apply fge_true in Hle. congruence.
  - destruct (fge x n) eqn:E; [|reflexivity].
    apply fge_true in E. exfalso. apply (Qlt_not_le _ _ H E).
Qed.

(** Each evaluation block only appends to the accumulated lists. *)
Ltac acc_app_tac a :=
  destruct a as [w r]; cbn;
  repeat match goal with
         | |- context [if ?b then _ else _] => destruct b
         end; cbn; rewrite ?app_nil_r; reflexivity.

Lemma eval_cpu_app (c : CPUInfo) (a : Acc) :
  eval_cpu c a = mkAcc (acc_warnings a ++ acc_warnings (eval_cpu c acc0))
                       (acc_recs a ++ acc_recs (eval_cpu c acc0)).
Proof. unfold eval_cpu. acc_app_tac a. Qed.

Lemma eval_memory_app (m : MemoryInfo) (a : Acc) :
  eval_memory m a = mkAcc (acc_warnings a ++ acc_warnings (eval_memory m acc0))
                          (acc_recs a ++ acc_recs (eval_memory m acc0)).
Proof. unfold eval_memory. acc_app_tac a. Qed.

Lemma eval_gpu_app (g : option GPUInfo) (a : Acc) :
  eval_gpu g a = mkAcc (acc_warnings a ++ acc_warnings (eval_gpu g acc0))
                       (acc_recs a ++ acc_recs (eval_gpu g acc0)).
Proof. unfold eval_gpu. destruct g; acc_app_tac a. Qed.

Lemma eval_storage_app (s : StorageInfo) (a : Acc) :
  eval_storage s a = mkAcc (acc_warnings a ++ acc_warnings (eval_storage s acc0))
                           (acc_recs a ++ acc_recs (eval_storage s acc0)).
Proof. unfold eval_storage. acc_app_tac a. Qed.

(** The messages of [validate] are the concatenation of the four blocks. *)
Lemma evaluate_split (c : CPUInfo) (m : MemoryInfo) (g : option GPUInfo)
  (s : StorageInfo) :
  acc_warnings (evaluate c m g s) =
    (acc_warnings (eval_cpu c acc0) ++ acc_warnings (eval_memory m acc0)
     ++ acc_warnings (eval_gpu g acc0) ++ acc_warnings (eval_storage s acc0))%list
  /\ acc_recs (evaluate c m g s) =
    (acc_recs (eval_cpu c acc0) ++ acc_recs (eval_memory m acc0)
     ++ acc_recs (eval_gpu g acc0) ++ acc_recs (eval_storage s acc0))%list.
Proof.
  unfold evaluate.
  rewrite eval_storage_app, (eval_gpu_app g), (eval_memory_app m).
  cbn. rewrite !app_assoc. split; reflexivity.
Qed.

Definition all_of (r : Resource) (l : list Msg) : Prop :=
  Forall (fun x => resource_of x = r) l.

Lemma msgs_for_all_of (q r : Resource) (l : list Msg) :
  all_of q l -> msgs_for r l = if resource_eqb q r then l else [].
Proof.
  intro H. unfold msgs_for. induction H as [|x l Hx _ IH]; cbn.
  - destruct (resource_eqb q r); reflexivity.
  - rewrite IH, Hx. destruct (resource_eqb q r); reflexivity.
Qed.

Ltac all_of_tac :=
  repeat match goal with
         | |- context [if ?b then _ else _] => destruct b
         end; cbn; repeat constructor.

Lemma cpu_block_all_of (c : CPUInfo) :
  all_of RCPU (acc_warnings (eval_cpu c acc0))
  /\ all_of RCPU (acc_recs (eval_cpu c acc0)).
Proof. unfold eval_cpu; split; all_of_tac. Qed.

Lemma memory_block_all_of (m : MemoryInfo) :
  all_of RMemory (acc_warnings (eval_memory m acc0))
  /\ all_of RMemory (acc_recs (eval_memory m acc0)).
Proof. unfold eval_memory; split; all_of_tac. Qed.

Lemma gpu_block_all_of (g : option GPUInfo) :
  all_of RGPU (acc_warnings (eval_gpu g acc0))
  /\ all_of RGPU (acc_recs (eval_gpu g acc0)).
Proof. unfold eval_gpu; destruct g; split; all_of_tac. Qed.

Lemma storage_block_all_of (s : StorageInfo) :
  all_of RStorage (acc_warnings (eval_storage s acc0))
  /\ all_of RStorage (acc_recs (eval_storage s acc0)).
Proof. unfold eval_storage; split; all_of_tac. Qed.

Lemma msgs_for_app (r : Resource) (l1 l2 : list Msg) :
  msgs_for r (l1 ++ l2)%list = (msgs_for r l1 ++ msgs_for r l2)%list.
Proof. unfold msgs_for. apply filter_app. Qed.

Ltac block_tac c m g s :=
  destruct (cpu_block_all_of c) as [Hcw Hcr];
  destruct (memory_block_all_of m) as [Hmw Hmr];
  destruct (gpu_block_all_of g) as [Hgw Hgr];
  destruct (storage_block_all_of s) as [Hsw Hsr];
  rewrite !msgs_for_app;
  rewrite ?(msgs_for_all_of _ _ _ Hcw), ?(msgs_for_all_of _ _ _ Hcr),
          ?(msgs_for_all_of _ _ _ Hmw), ?(msgs_for_all_of _ _ _ Hmr),
          ?(msgs_for_all_of _ _ _ Hgw), ?(msgs_for_all_of _ _ _ Hgr),
          ?(msgs_for_all_of _ _ _ Hsw), ?(msgs_for_all_of _ _ _ Hsr);
  cbn; rewrite ?app_nil_r; reflexivity.

(** The messages about one resource are exactly its own block's. *)
Lemma msgs_for_blocks (c : CPUInfo) (m : MemoryInfo) (g : option GPUInfo)
  (s : StorageInfo) :
  let a := evaluate c m g s in
  msgs_for RCPU (acc_warnings a) = acc_warnings (eval_cpu c acc0)
  /\ msgs_for RCPU (acc_recs a) = acc_recs (eval_cpu c acc0)
  /\ msgs_for RMemory (acc_warnings a) = acc_warnings (eval_memory m acc0)
  /\ msgs_for RMemory (acc_recs a) = acc_recs (eval_memory m acc0)
  /\ msgs_for RGPU (acc_warnings a) = acc_warnings (eval_gpu g acc0)
  /\ msgs_for RGPU (acc_recs a) = acc_recs (eval_gpu g acc0)
  /\ msgs_for RStorage (acc_warnings a) = acc_warnings (eval_storage s acc0)
  /\ msgs_for RStorage (acc_recs a) = acc_recs (eval_storage s acc0).
Proof.
  cbv zeta. destruct (evaluate_split c m g s) as [Hw Hr].
  rewrite Hw, Hr.
  repeat split; block_tac c m g s.
Qed.

Lemma map_nil_iff {A B} (f : A -> B) (l : list A) : map f l = [] <-> l = [].
Proof. destruct l; cbn; split; congruence. Qed.

Lemma str_list_map (l : list string) : str_list (map JStr l) = Some l.
Proof. induction l as [|x l IH]; cbn; [reflexivity|]. rewrite IH. reflexivity. Qed.

Lemma status_of_spec (crit : list bool) (ws : list string) :
  (status_of crit ws = "FAILED" <-> any crit = true)
  /\ (status_of crit ws = "PASSED_WITH_WARNINGS" <->
        status_of crit ws <> "FAILED" /\ ws <> [])
  /\ (status_of crit ws = "PASSED" <->
        status_of crit ws <> "FAILED" /\ ws = []).
Proof.
  unfold status_of. destruct (any crit), ws; cbn;
    repeat split; intros; try congruence;
    repeat match goal with H : _ /\ _ |- _ => destruct H end;
    try congruence.
Qed.

Lemma fge_mono (x y : Q) (n : Z) :
  (x <= y)%Q -> fge x n = true -> fge y n = true.
Proof.
  intros Hxy Hx. apply fge_true. apply fge_true in Hx.
  apply (Qle_trans _ _ _ Hx Hxy).
Qed.

Ltac fge_cases :=
  repeat match goal with
         | |- context [fge ?v ?n] =>
             let E := fresh "E" in destruct (fge v n) eqn:E
         end.

(** ** The JSON text of the report and its reading back *)

Lemma sappend_assoc (a b c : string) : (a ++ b) ++ c = a ++ (b ++ c).
Proof. induction a as [|ch a IH]; cbn; [reflexivity|]. rewrite IH. reflexivity. Qed.

Lemma sappend_nil_r (a : string) : a ++ "" = a.
Proof. induction a as [|ch a IH]; cbn; [reflexivity|]. rewrite IH. reflexivity. Qed.

Lemma slength_app (a b : string) :
  String.length (a ++ b) = (String.length a + String.length b)%nat.
Proof. induction a as [|ch a IH]; cbn; [reflexivity|]. now rewrite IH. Qed.

Lemma skip_ws_spaces (n : nat) (s : string) : skip_ws (spaces n ++ s) = skip_ws s.
Proof. induction n as [|n IH]; [reflexivity|]. exact IH. Qed.

Lemma skip_ws_nl (k : nat) (s : string) : skip_ws (nl k ++ s) = skip_ws s.
Proof. unfold nl. apply skip_ws_spaces. Qed.

Lemma num_stop_cons (c : ascii) (t : string) :
  num_stop (String c t) = true ->
  is_digit c = false /\ Ascii.eqb c "."%char = false /\ Ascii.eqb c "e"%char = false
  /\ Ascii.eqb c "E"%char = false /\ Ascii.eqb c "+"%char = false
  /\ Ascii.eqb c "-"%char = false.
Proof.
  cbn. destruct (is_digit c), (Ascii.eqb c "."%char), (Ascii.eqb c "e"%char),
    (Ascii.eqb c "E"%char), (Ascii.eqb c "+"%char), (Ascii.eqb c "-"%char);
    cbn; intro H; try discriminate; repeat split.
Qed.

Ltac stop_facts Hr :=
  let D := fresh "D" in let Dt := fresh "Dt" in let E1 := fresh "E1" in
  let E2 := fresh "E2" in let P := fresh "P" in let M := fresh "M" in
  destruct (num_stop_cons _ _ Hr) as (D & Dt & E1 & E2 & P & M).

Lemma span_digits_app (s rest d r : string) :
  num_stop rest = true -> span_digits s = (d, r) ->
  span_digits (s ++ rest) = (d, r ++ rest).
Proof.
  intros Hr. revert d r. induction s as [|ch s IH]; intros d r H; cbn in H |- *.
  - injection H as <- <-. destruct rest as [|c t]; [reflexivity|].
    stop_facts Hr. cbn. now rewrite D.
  - destruct (is_digit ch).
    + destruct (span_digits s) as [d0 r0] eqn:E. injection H as <- <-.
      now rewrite (IH d0 r0 eq_refl).
    + now injection H as <- <-.
Qed.

Lemma opt_minus_app (s rest m s1 : string) :
  num_stop rest = true -> opt_minus s = (m, s1) ->
  opt_minus (s ++ rest) = (m, s1 ++ rest).
Proof.
  intros Hr H. destruct s as [|ch s]; cbn in H |- *.
  - injection H as <- <-. destruct rest as [|c t]; [reflexivity|].
    stop_facts Hr. cbn. now rewrite M.
  - destruct (Ascii.eqb ch "-"%char); now injection H as <- <-.
Qed.

Lemma int_part_app (s rest i s2 : string) :
  num_stop rest = true -> int_part s = Some (i, s2) ->
  int_part (s ++ rest) = Some (i, s2 ++ rest).
Proof.
  intros Hr H. destruct s as [|ch s]; cbn in H |- *; [discriminate|].
  destruct (Ascii.eqb ch "0"%char); [now injection H as <- <-|].
  destruct (is_digit ch); [|discriminate].
  destruct (span_digits s) as [d r] eqn:E. injection H as <- <-.
  now rewrite (span_digits_app _ _ _ _ Hr E).
Qed.

Lemma frac_part_app (s rest f s3 : string) :
  num_stop rest = true -> frac_part s = (f, s3) ->
  frac_part (s ++ rest) = (f, s3 ++ rest).
Proof.
  intros Hr H. destruct s as [|dot [|ch t]]; cbn in H |- *.
  - injection H as <- <-. destruct rest as [|c [|c' t]]; [reflexivity|reflexivity|].
    stop_facts Hr. cbn. now rewrite Dt.
  - injection H as <- <-. destruct rest as [|c t]; [reflexivity|].
    stop_facts Hr. cbn. now rewrite D, andb_false_r.
  - destruct (Ascii.eqb dot "."%char && is_digit ch).
    + destruct (span_digits t) as [d r] eqn:E. injection H as <- <-.
      now rewrite (span_digits_app _ _ _ _ Hr E).
    + now injection H as <- <-.
Qed.

Lemma exp_part_app (s rest e s4 : string) :
  num_stop rest = true -> exp_part s = (e, s4) ->
  exp_part (s ++ rest) = (e, s4 ++ rest).
Proof.
  intros Hr H. destruct s as [|ch t]; cbn in H |- *.
  - injection H as <- <-. destruct rest as [|c u]; [reflexivity|].
    stop_facts Hr. cbn. now rewrite E1, E2.
  - destruct (Ascii.eqb ch "e"%char || Ascii.eqb ch "E"%char); [|now injection H as <- <-].
    destruct t as [|c u]; cbn in H |- *.
    + injection H as <- <-. destruct rest as [|c u]; [reflexivity|].
      stop_facts Hr. cbn. rewrite P, M. cbn. now rewrite D.
    + destruct (Ascii.eqb c "+"%char || Ascii.eqb c "-"%char).
      * destruct u as [|c2 u2]; cbn in H |- *.
        -- injection H as <- <-. destruct rest as [|c3 u3]; [reflexivity|].
           stop_facts Hr. cbn. now rewrite D.
        -- destruct (is_digit c2); [|now injection H as <- <-].
           destruct (span_digits u2) as [d r] eqn:E. injection H as <- <-.
           now rewrite (span_digits_app _ _ _ _ Hr E).
      * destruct (is_digit c); [|now injection H as <- <-].
        destruct (span_digits u) as [d r] eqn:E. injection H as <- <-.
        now rewrite (span_digits_app _ _ _ _ Hr E).
Qed.

Lemma scan_number_app (s rest i f e r : string) :
  num_stop rest = true -> scan_number s = Some (i, f, e, r) ->
  scan_number (s ++ rest) = Some (i, f, e, r ++ rest).
Proof.
  intros Hr H. unfold scan_number in H |- *.
  destruct (opt_minus s) as [m s1] eqn:E1.
  rewrite (opt_minus_app _ _ _ _ Hr E1).
  destruct (int_part s1) as [[i0 s2]|] eqn:E2; [|discriminate].
  rewrite (int_part_app _ _ _ _ Hr E2).
  destruct (frac_part s2) as [f0 s3] eqn:E3.
  rewrite (frac_part_app _ _ _ _ Hr E3).
  destruct (exp_part s3) as [e0 s4] eqn:E4.
  rewrite (exp_part_app _ _ _ _ Hr E4).
  injection H as <- <- <- <-. reflexivity.
Qed.

Lemma scan_number_head (s : string) x :
  scan_number s = Some x ->
  exists c t, s = String c t /\ (Ascii.eqb c "-"%char || is_digit c) = true.
Proof.
  unfold scan_number. destruct s as [|c t]; cbn; [discriminate|].
  intro H. exists c, t. split; [reflexivity|].
  destruct (Ascii.eqb c "-"%char) eqn:M; [reflexivity|].
  cbn in H. destruct (Ascii.eqb c "0"%char) eqn:Z0.
  - apply Ascii.eqb_eq in Z0. now subst.
  - destruct (is_digit c); [reflexivity|discriminate].
Qed.

Lemma num_head_facts (c : ascii) :
  (Ascii.eqb c "-"%char || is_digit c) = true ->
  is_ws c = false /\ Ascii.eqb c "n"%char = false /\ Ascii.eqb c "t"%char = false
  /\ Ascii.eqb c "f"%char = false /\ Ascii.eqb c dquote = false
  /\ Ascii.eqb c "["%char = false /\ Ascii.eqb c "{"%char = false
  /\ Ascii.eqb c "]"%char = false /\ Ascii.eqb c "}"%char = false.
Proof.
  destruct c as [[] [] [] [] [] [] [] []]; vm_compute; intro H;
    first [discriminate H | repeat split].
Qed.

Lemma scan_esc_char (ch : ascii) (t : string) :
  scan_string (json_esc_char ch ++ t) = cons_res ch (scan_string t).
Proof. destruct ch as [[] [] [] [] [] [] [] []]; reflexivity. Qed.

Lemma scan_json_escape (s rest : string) :
  scan_string (json_escape_ascii s ++ String dquote rest) = Some (s, rest).
Proof.
  induction s as [|ch s IH]; [reflexivity|]. cbn [json_escape_ascii].
  now rewrite sappend_assoc, scan_esc_char, IH.
Qed.

Section JsonText.
Variable si : Z -> string.
Variable sf : Q -> string.
Variable pi : string -> option Z.
Variable pf : string -> option Q.

Lemma parse_value_nl (f k : nat) (s : string) :
  parse_value pi pf f (nl k ++ s) = parse_value pi pf f s.
Proof. destruct f; cbn [parse_value]; [reflexivity|]. now rewrite skip_ws_nl. Qed.

Lemma parse_elems_nl (f k : nat) (s : string) :
  parse_elems pi pf f (nl k ++ s) = parse_elems pi pf f s.
Proof. destruct f; cbn [parse_elems]; [reflexivity|]. now rewrite parse_value_nl. Qed.

Lemma parse_int_token (t rest : string) (f : nat) (z : Z) :
  json_int_literal t = true -> pi t = Some z -> num_stop rest = true ->
  parse_value pi pf (S f) (t ++ rest) = Some (JInt z, rest).
Proof.
  unfold json_int_literal.
  destruct (scan_number t) as [[[[i fr] e] r]|] eqn:Hs; [|discriminate].
  intros H Hz Hr. apply andb_true_iff in H as [H Hi].
  apply andb_true_iff in H as [H Hrr]. apply andb_true_iff in H as [Hf He].
  apply String.eqb_eq in Hf, He, Hrr, Hi. subst.
  pose proof (scan_number_app _ _ _ _ _ _ Hr Hs) as Ha.
  destruct (scan_number_head _ _ Hs) as (c & u & -> & Hc).
  destruct (num_head_facts c Hc) as (W & N & T & F & Dq & L & B & _).
  cbn [parse_value append skip_ws]. rewrite W, N, T, F, Dq, L, B.
  unfold parse_number. cbn [append] in Ha. rewrite Ha. cbn. now rewrite Hz.
Qed.

Lemma parse_float_token (t rest : string) (f : nat) (q : Q) :
  json_float_literal t = true -> pf t = Some q -> num_stop rest = true ->
  parse_value pi pf (S f) (t ++ rest) = Some (JFloat q, rest).
Proof.
  unfold json_float_literal.
  destruct (scan_number t) as [[[[i fr] e] r]|] eqn:Hs; [|discriminate].
  intros H Hq Hr. apply andb_true_iff in H as [H Hi].
  apply andb_true_iff in H as [Hfe Hrr].
  apply String.eqb_eq in Hrr, Hi. subst r.
  pose proof (scan_number_app _ _ _ _ _ _ Hr Hs) as Ha.
  destruct (scan_number_head _ _ Hs) as (c & u & Ht & Hc).
  rewrite Ht in Ha, Hi, Hq |- *.
  destruct (num_head_facts c Hc) as (W & N & T & F & Dq & L & B & _).
  cbn [parse_value append skip_ws]. rewrite W, N, T, F, Dq, L, B.
  unfold parse_number. cbn [append] in Ha. rewrite Ha.
  destruct (String.eqb fr "") eqn:E1, (String.eqb e "") eqn:E2;
    try (cbn [andb]; rewrite Hi, Hq; reflexivity).
  apply String.eqb_eq in E1, E2. subst. discriminate Hfe.
Qed.

Lemma parse_value_quote (f : nat) (t : string) :
  parse_value pi pf (S f) (String dquote t)
  = match scan_string t with Some (x, r) => Some (JStr x, r) | None => None end.
Proof. reflexivity. Qed.

Lemma parse_value_bracket (f : nat) (t : string) :
  parse_value pi pf (S f) (String "["%char t)
  = match skip_ws t with
    | String c r =>
        if Ascii.eqb c "]"%char then Some (JList [], r)
        else match parse_elems pi pf f (skip_ws t) with
             | Some (l, r') => Some (JList l, r')
             | None => None
             end
    | EmptyString => None
    end.
Proof. reflexivity. Qed.

Lemma parse_value_brace (f : nat) (t : string) :
  parse_value pi pf (S f) (String "{"%char t)
  = match skip_ws t with
    | String c r =>
        if Ascii.eqb c "}"%char then Some (JDict [], r)
        else match parse_members pi pf f (skip_ws t) with
             | Some (l, r') => Some (JDict l, r')
             | None => None
             end
    | EmptyString => None
    end.
Proof. reflexivity. Qed.

Lemma parse_str (s rest : string) (f : nat) :
  parse_value pi pf (S f) (json_str s ++ rest) = Some (JStr s, rest).
Proof.
  unfold json_str. cbn [append]. rewrite parse_value_quote, sappend_assoc.
  cbn [append]. now rewrite scan_json_escape.
Qed.

Lemma skip_ws_cons_nonws (c : ascii) (s : string) :
  is_ws c = false -> skip_ws (String c s) = String c s.
Proof. intro W. cbn. now rewrite W. Qed.

Lemma parse_value_space (f : nat) (s : string) :
  parse_value pi pf f (String " "%char s) = parse_value pi pf f s.
Proof. destruct f; reflexivity. Qed.

Lemma parse_members_nl (f k : nat) (s : string) :
  parse_members pi pf f (nl k ++ s) = parse_members pi pf f s.
Proof. destruct f; cbn [parse_members]; [reflexivity|]. now rewrite skip_ws_nl. Qed.

Lemma parse_members_quote (f : nat) (t : string) :
  parse_members pi pf (S f) (String dquote t)
  = match scan_string t with
    | None => None
    | Some (k, r) =>
        match skip_ws r with
        | String c1 r1 =>
            if Ascii.eqb c1 ":"%char then
              match parse_value pi pf f r1 with
              | None => None
              | Some (v, r2) =>
                  match skip_ws r2 with
                  | String c2 r3 =>
                      if Ascii.eqb c2 ","%char then
                        match parse_members pi pf f r3 with
                        | Some (l, r4) => Some ((k, v) :: l, r4)
                        | None => None
                        end
                      else if Ascii.eqb c2 "}"%char then Some ([(k, v)], r3)
                      else None
                  | EmptyString => None
                  end
              end
            else None
        | EmptyString => None
        end
    end.
Proof. reflexivity. Qed.

Lemma dump_items_one (jq : string -> string) (lvl : nat) (x : json) :
  dump_items si sf jq lvl [x] = dump si sf jq lvl x.
Proof. reflexivity. Qed.

Lemma dump_items_cons2 (jq : string -> string) (lvl : nat) (x y : json) (t : list json) :
  dump_items si sf jq lvl (x :: y :: t)
  = dump si sf jq lvl x ++ "," ++ nl lvl ++ dump_items si sf jq lvl (y :: t).
Proof. reflexivity. Qed.

Lemma dump_members_one (jq : string -> string) (lvl : nat) (k : string) (x : json) :
  dump_members si sf jq lvl [(k, x)] = jq k ++ ": " ++ dump si sf jq lvl x.
Proof. reflexivity. Qed.

Lemma dump_members_cons2 (jq : string -> string) (lvl : nat) (k : string) (x : json)
  (kv : string * json) (t : list (string * json)) :
  dump_members si sf jq lvl ((k, x) :: kv :: t)
  = jq k ++ ": " ++ dump si sf jq lvl x ++ "," ++ nl lvl
      ++ dump_members si sf jq lvl (kv :: t).
Proof. reflexivity. Qed.

Lemma dump_list_cons (jq : string -> string) (lvl : nat) (x : json) (t : list json) :
  dump si sf jq lvl (JList (x :: t))
  = "[" ++ nl (S lvl) ++ dump_items si sf jq (S lvl) (x :: t) ++ nl lvl ++ "]".
Proof. reflexivity. Qed.

Lemma dump_dict_cons (jq : string -> string) (lvl : nat) (kv : string * json)
  (t : list (string * json)) :
  dump si sf jq lvl (JDict (kv :: t))
  = "{" ++ nl (S lvl) ++ dump_members si sf jq (S lvl) (kv :: t) ++ nl lvl ++ "}".
Proof. reflexivity. Qed.

Lemma json_size_list (l : list json) : json_size (JList l) = S (json_sizes l).
Proof. reflexivity. Qed.

Lemma json_size_dict (l : list (string * json)) : json_size (JDict l) = S (json_sizes_kv l).
Proof. reflexivity. Qed.

Lemma json_ok_list (l : list json) :
  json_ok si sf pi pf (JList l) <-> Forall (json_ok si sf pi pf) l.
Proof.
  induction l as [|x t IH]; cbn; [split; auto|].
  rewrite Forall_cons_iff, <- IH. reflexivity.
Qed.

Lemma json_ok_dict (l : list (string * json)) :
  json_ok si sf pi pf (JDict l) <-> Forall (fun kv => json_ok si sf pi pf (snd kv)) l.
Proof.
  induction l as [|[k x] t IH]; cbn; [split; auto|].
  rewrite Forall_cons_iff, <- IH. reflexivity.
Qed.

Lemma dump_head (j : json) (lvl : nat) :
  json_ok si sf pi pf j ->
  exists c u, dump si sf json_str lvl j = String c u
    /\ is_ws c = false /\ Ascii.eqb c "]"%char = false /\ Ascii.eqb c "}"%char = false.
Proof.
  intro Hok.
  assert (Num : forall t, (exists x, scan_number t = Some x) ->
            exists c u, t = String c u /\ is_ws c = false
              /\ Ascii.eqb c "]"%char = false /\ Ascii.eqb c "}"%char = false).
  { intros t [x Hs]. destruct (scan_number_head _ _ Hs) as (c & u & -> & Hc).
    destruct (num_head_facts c Hc) as (W & _ & _ & _ & _ & _ & _ & B & C).
    now exists c, u. }
  destruct j as [| [] | z | q | s | [|x t] | [|kv t]];
    try (eexists _, _; split; [reflexivity | repeat split]; fail).
  - cbn [dump]. apply Num. destruct Hok as [Hl _]. unfold json_int_literal in Hl.
    destruct (scan_number (si z)) as [x|]; [now exists x | discriminate].
  - cbn [dump]. apply Num. destruct Hok as [Hl _]. unfold json_float_literal in Hl.
    destruct (scan_number (sf q)) as [x|]; [now exists x | discriminate].
Qed.

Lemma json_str_eq (s : string) :
  json_str s = String dquote (json_escape_ascii s ++ String dquote "").
Proof. reflexivity. Qed.

Lemma parse_elems_S (f : nat) (s : string) :
  parse_elems pi pf (S f) s
  = match parse_value pi pf f s with
    | None => None
    | Some (x, r) =>
        match skip_ws r with
        | String c r' =>
            if Ascii.eqb c ","%char then
              match parse_elems pi pf f r' with
              | Some (l, r'') => Some (x :: l, r'')
              | None => None
              end
            else if Ascii.eqb c "]"%char then Some ([x], r')
            else None
        | EmptyString => None
        end
    end.
Proof. reflexivity. Qed.

Lemma dump_items_cons_head (jq : string -> string) (lvl : nat) (x : json) (t : list json) :
  dump_items si sf jq lvl (x :: t)
  = dump si sf jq lvl x ++ match t with [] => "" | _ => "," ++ nl lvl ++ dump_items si sf jq lvl t end.
Proof. destruct t; cbn [dump_items]; [now rewrite sappend_nil_r | reflexivity]. Qed.

Lemma dump_members_cons_head (jq : string -> string) (lvl : nat) (k : string) (x : json)
  (t : list (string * json)) :
  dump_members si sf jq lvl ((k, x) :: t)
  = jq k ++ ": " ++ dump si sf jq lvl x
      ++ match t with [] => "" | _ => "," ++ nl lvl ++ dump_members si sf jq lvl t end.
Proof. destruct t; [cbn; now rewrite sappend_nil_r | reflexivity]. Qed.

Lemma parse_items_dump (lvl k : nat) (l : list json) (f : nat) (rest : string) :
  Forall (fun x => forall lvl f rest, num_stop rest = true -> json_ok si sf pi pf x ->
            (json_size x <= f)%nat ->
            parse_value pi pf f (dump si sf json_str lvl x ++ rest) = Some (x, rest)) l ->
  Forall (json_ok si sf pi pf) l -> l <> [] -> (json_sizes l <= f)%nat ->
  parse_elems pi pf f (dump_items si sf json_str lvl l ++ nl k ++ "]" ++ rest)
  = Some (l, rest).
Proof.
  revert f. induction l as [|x t IH]; intros f HP Hok Hne Hf; [congruence|].
  apply Forall_cons_iff in HP as [Px HPt]. apply Forall_cons_iff in Hok as [Okx Okt].
  destruct f as [|f]; [cbn in Hf; lia|]. cbn [json_sizes] in Hf.
  destruct t as [|y t'].
  - rewrite dump_items_one. rewrite parse_elems_S.
    rewrite (Px lvl f (nl k ++ "]" ++ rest)); [| reflexivity | exact Okx | lia].
    rewrite skip_ws_nl. reflexivity.
  - rewrite dump_items_cons2, !sappend_assoc. rewrite parse_elems_S.
    rewrite (Px lvl f _); [| reflexivity | exact Okx | lia].
    cbn [append]. rewrite skip_ws_cons_nonws by reflexivity. cbn [Ascii.eqb Bool.eqb].
    assert (E : parse_elems pi pf f
                  (dump_items si sf json_str lvl (y :: t') ++ nl k ++ "]" ++ rest)
                = Some (y :: t', rest)).
    { apply IH; [exact HPt | exact Okt | discriminate | cbn [json_sizes] in Hf |- *; lia]. }
    cbn [append] in E. rewrite parse_elems_nl, E. reflexivity.
Qed.

Lemma parse_members_dump (lvl k : nat) (l : list (string * json)) (f : nat) (rest : string) :
  Forall (fun kv => forall lvl f rest, num_stop rest = true ->
            json_ok si sf pi pf (snd kv) -> (json_size (snd kv) <= f)%nat ->
            parse_value pi pf f (dump si sf json_str lvl (snd kv) ++ rest)
            = Some (snd kv, rest)) l ->
  Forall (fun kv => json_ok si sf pi pf (snd kv)) l -> l <> [] ->
  (json_sizes_kv l <= f)%nat ->
  parse_members pi pf f (dump_members si sf json_str lvl l ++ nl k ++ "}" ++ rest)
  = Some (l, rest).
Proof.
  revert f. induction l as [|[key x] t IH]; intros f HP Hok Hne Hf; [congruence|].
  apply Forall_cons_iff in HP as [Px HPt]. apply Forall_cons_iff in Hok as [Okx Okt].
  cbn [snd] in Px, Okx.
  destruct f as [|f]; [cbn in Hf; lia|]. cbn [json_sizes_kv] in Hf.
  destruct t as [|kv t'].
  - rewrite dump_members_one, !sappend_assoc.
    remember (nl k ++ "}" ++ rest) as Y eqn:HY.
    rewrite json_str_eq. cbn [append].
    rewrite parse_members_quote, sappend_assoc. cbn [append].
    rewrite scan_json_escape, skip_ws_cons_nonws by reflexivity.
    cbn [Ascii.eqb Bool.eqb]. rewrite parse_value_space.
    rewrite (Px lvl f Y); [| subst Y; reflexivity | exact Okx | lia].
    subst Y. rewrite skip_ws_nl. reflexivity.
  - rewrite dump_members_cons2, !sappend_assoc.
    remember ("," ++ nl lvl ++ dump_members si sf json_str lvl (kv :: t')
                ++ nl k ++ "}" ++ rest) as Y eqn:HY.
    rewrite json_str_eq. cbn [append].
    rewrite parse_members_quote, sappend_assoc. cbn [append].
    rewrite scan_json_escape, skip_ws_cons_nonws by reflexivity.
    cbn [Ascii.eqb Bool.eqb]. rewrite parse_value_space.
    rewrite (Px lvl f Y); [| subst Y; reflexivity | exact Okx | lia].
    subst Y. cbn [append]. rewrite skip_ws_cons_nonws by reflexivity.
    cbn [Ascii.eqb Bool.eqb].
    assert (E : parse_members pi pf f
                  (dump_members si sf json_str lvl (kv :: t') ++ nl k ++ "}" ++ rest)
                = Some (kv :: t', rest)).
    { apply IH; [exact HPt | exact Okt | discriminate |].
      cbn [json_sizes_kv] in Hf |- *. destruct kv. lia. }
    cbn [append] in E. rewrite parse_members_nl, E. reflexivity.
Qed.

Lemma parse_dump (j : json) :
  forall lvl f rest, num_stop rest = true -> json_ok si sf pi pf j ->
  (json_size j <= f)%nat ->
  parse_value pi pf f (dump si sf json_str lvl j ++ rest) = Some (j, rest).
Proof.
  induction j as [| b | z | q | s | l IH | l IH] using json_ind';
    intros lvl f rest Hr Hok Hf; (destruct f as [|f]; [cbn in Hf; lia|]).
  - reflexivity.
  - destruct b; reflexivity.
  - exact (parse_int_token _ _ f z (proj1 Hok) (proj2 Hok) Hr).
  - exact (parse_float_token _ _ f q (proj1 Hok) (proj2 Hok) Hr).
  - exact (parse_str s rest f).
  - destruct l as [|x t]; [reflexivity|].
    apply json_ok_list in Hok. rewrite json_size_list in Hf.
    pose proof (parse_items_dump (S lvl) lvl (x :: t) f rest IH Hok
                  ltac:(discriminate) ltac:(lia)) as E.
    apply Forall_cons_iff in Hok as [Okx _].
    destruct (dump_head x (S lvl) Okx) as (c & u & Hd & W & B & _).
    rewrite dump_list_cons, !sappend_assoc. cbn [append].
    rewrite parse_value_bracket, skip_ws_nl, dump_items_cons_head, Hd.
    rewrite dump_items_cons_head, Hd in E. cbn [append] in E |- *.
    rewrite skip_ws_cons_nonws by exact W. rewrite B, E. reflexivity.
  - destruct l as [|[k x] t]; [reflexivity|].
    apply json_ok_dict in Hok. rewrite json_size_dict in Hf.
    pose proof (parse_members_dump (S lvl) lvl ((k, x) :: t) f rest IH Hok
                  ltac:(discriminate) ltac:(lia)) as E.
    rewrite dump_dict_cons, !sappend_assoc. cbn [append].
    rewrite parse_value_brace, skip_ws_nl, dump_members_cons_head.
    rewrite dump_members_cons_head in E. rewrite json_str_eq in E |- *.
    cbn [append] in E |- *.
    rewrite skip_ws_cons_nonws by reflexivity. cbn [Ascii.eqb Bool.eqb]. rewrite E. reflexivity.
Qed.

Lemma dump_length (j : json) :
  forall lvl, json_ok si sf pi pf j ->
  (json_size j <= String.length (dump si sf json_str lvl j))%nat.
Proof.
  induction j as [| b | z | q | s | l IH | l IH] using json_ind'; intros lvl Hok;
    try (destruct (dump_head _ lvl Hok) as (c & u & -> & _); cbn; lia).
  - destruct l as [|x t]; [cbn; lia|].
    apply json_ok_list in Hok. rewrite json_size_list, dump_list_cons.
    rewrite !slength_app. cbn [String.length nl].
    assert (Hi : forall l, Forall (fun x => forall lvl, json_ok si sf pi pf x ->
                   (json_size x <= String.length (dump si sf json_str lvl x))%nat) l ->
                 Forall (json_ok si sf pi pf) l -> l <> [] ->
                 (json_sizes l <= S (String.length (dump_items si sf json_str (S lvl) l)))%nat).
    { clear. intros l HP Hok Hne. induction l as [|x t IHl]; [congruence|].
      apply Forall_cons_iff in HP as [Px HPt]. apply Forall_cons_iff in Hok as [Okx Okt].
      specialize (Px (S lvl) Okx). destruct t as [|y t'].
      - rewrite dump_items_one. cbn [json_sizes]. lia.
      - rewrite dump_items_cons2, !slength_app. cbn [String.length nl append].
        specialize (IHl HPt Okt ltac:(discriminate)).
        cbn [json_sizes] in IHl |- *. lia. }
    specialize (Hi _ IH Hok ltac:(discriminate)). lia.
  - destruct l as [|[k x] t]; [cbn; lia|].
    apply json_ok_dict in Hok. rewrite json_size_dict, dump_dict_cons.
    rewrite !slength_app. cbn [String.length nl].
    assert (Hi : forall l, Forall (fun kv => forall lvl, json_ok si sf pi pf (snd kv) ->
                   (json_size (snd kv)
                    <= String.length (dump si sf json_str lvl (snd kv)))%nat) l ->
                 Forall (fun kv => json_ok si sf pi pf (snd kv)) l -> l <> [] ->
                 (json_sizes_kv l
                  <= S (String.length (dump_members si sf json_str (S lvl) l)))%nat).
    { clear. intros l HP Hok Hne. induction l as [|[k x] t IHl]; [congruence|].
      apply Forall_cons_iff in HP as [Px HPt]. apply Forall_cons_iff in Hok as [Okx Okt].
      cbn [snd] in Px, Okx. specialize (Px (S lvl) Okx). destruct t as [|kv t'].
      - rewrite dump_members_one, json_str_eq, !slength_app. cbn [json_sizes_kv].
        cbn [String.length append]. lia.
      - rewrite dump_members_cons2, json_str_eq, !slength_app.
        cbn [String.length nl append].
        specialize (IHl HPt Okt ltac:(discriminate)).
        cbn [json_sizes_kv] in IHl |- *. destruct kv. lia. }
    specialize (Hi _ IH Hok ltac:(discriminate)). lia.
Qed.

Lemma json_load_dump (j : json) :
  json_ok si sf pi pf j -> json_load pi pf (dump si sf json_str 0 j) = Some j.
Proof.
  intro Hok. unfold json_load.
  pose proof (dump_length j 0 Hok) as Hl.
  pose proof (parse_dump j 0 (S (String.length (dump si sf json_str 0 j))) ""
                eq_refl Hok ltac:(lia)) as E.
  rewrite sappend_nil_r in E. rewrite E. reflexivity.
Qed.

Lemma json_ok_map_str (l : list string) : json_ok si sf pi pf (JList (map JStr l)).
Proof.
  apply json_ok_list. induction l as [|x t IH]; constructor; [exact I | exact IH].
Qed.

Lemma report_json_ok (r : SystemReport) :
  Forall (int_token_ok si pi) (report_ints r) ->
  Forall (float_token_ok sf pf) (report_floats r) ->
  json_ok si sf pi pf (report_asdict r).
Proof.
  destruct r as [[cm cc ct ca cmin crec] [mt ma mmin mrec] g
                 [st sa smin sfs] status recs warns ts].
  unfold report_ints, report_floats. cbn [cpu memory storage gpu].
  intros Hi Hf. repeat rewrite Forall_cons_iff in Hi.
  destruct Hi as (Hc & Ht & _).
  apply json_ok_dict.
  repeat apply Forall_cons; try apply Forall_nil; cbn [snd];
    try apply json_ok_map_str.
  - cbn. tauto.
  - destruct g as [g|]; cbn [app] in Hf; repeat rewrite Forall_cons_iff in Hf;
      cbn; tauto.
  - destruct g as [[gn gv gc gd gcc gav gq]|]; cbn [app] in Hf;
      repeat rewrite Forall_cons_iff in Hf; cbn; tauto.
  - destruct g as [g|]; cbn [app] in Hf; repeat rewrite Forall_cons_iff in Hf;
      cbn; tauto.
  - exact I.
  - exact I.
Qed.

End JsonText.

Lemma report_of_asdict (r : SystemReport) :
  report_of_json (report_asdict r) = Some r.
Proof.
  destruct r as [[cm cc ct ca cmin crec] [mt ma mmin mrec] g
                 [st sa smin sfs] status recs warns ts].
  unfold report_of_json, report_asdict, get_str_list. cbn -[str_list].
  rewrite !str_list_map. cbn.
  destruct g as [[gn gv gc gd gcc gav gq]|]; reflexivity.
Qed.

(** ** Claims *)

(** C1: the overall status of a report of [validate] is FAILED exactly when
    the CPU, memory or storage minimum flag is false (the GPU fact plays no
    part); otherwise it is PASSED_WITH_WARNINGS exactly when the warnings
    are non-empty, and PASSED exactly when they are empty. *)
Theorem validate_overall_status (str_int : Z -> string) (str_float : Q -> string)
  (c : CPUInfo) (m : MemoryInfo) (g : option GPUInfo) (s : StorageInfo)
  (ts : string) :
  let r := validate str_int str_float c m g s ts in
  (overall_status r = "FAILED" <->
     cpu_meets_minimum c = false \/ mem_meets_minimum m = false
     \/ sto_meets_minimum s = false)
  /\ (overall_status r = "PASSED_WITH_WARNINGS" <->
        overall_status r <> "FAILED" /\ warnings r <> [])
  /\ (overall_status r = "PASSED" <->
        overall_status r <> "FAILED" /\ warnings r = []).
Proof.
  cbv zeta. unfold validate. cbn [overall_status warnings].
  destruct (status_of_spec (critical_failures c m s)
              (map (render str_int str_float)
                 (acc_warnings (evaluate c m g s)))) as [H1 [H2 H3]].
  split; [| split; assumption].
  rewrite H1. split.
  - intro H. unfold critical_failures, any in H. cbn in H.
    destruct (cpu_meets_minimum c), (mem_meets_minimum m),
             (sto_meets_minimum s); cbn in H; auto; discriminate.
  - intro H. unfold critical_failures, any. cbn.
    destruct H as [H|[H|H]]; rewrite H; cbn;
      destruct (cpu_meets_minimum c), (mem_meets_minimum m),
               (sto_meets_minimum s); reflexivity.
Qed.

(** C2: the CPU flags are [cores >= 8] and [cores >= 12]; the memory flags
    are [total >= 32] and [total >= 40], compared on the measured total. *)
Theorem threshold_flags (model_ arch : string) (c t : Z) (total avail : Q) :
  (cpu_meets_minimum (get_cpu_info model_ c t arch) = true <-> (8 <= c)%Z)
  /\ (cpu_meets_recommended (get_cpu_info model_ c t arch) = true
        <-> (12 <= c)%Z)
  /\ (mem_meets_minimum (get_memory_info total avail) = true
        <-> (32 <= total)%Q)
  /\ (mem_meets_recommended (get_memory_info total avail) = true
        <-> (40 <= total)%Q).
Proof.
  cbn. rewrite !fge_true, !Z.geb_le. repeat split; auto.
Qed.

(** C3: the quantization advisor returns one of four fixed strings, chosen
    by the thresholds 32, 24, 16 tried in descending order (boundaries
    inclusive), and the precision it recommends never decreases as the
    VRAM grows. *)
Theorem quantization_advisor (v : Q) :
  In (recommend_quantization v)
     ["Q6_K or Q8_0 (full GPU offload)"; "Q5_K_M (full GPU offload)";
      "Q4_K_M (partial GPU offload)"; "Q4_K_M (CPU-heavy, limited GPU)"]
  /\ ((32 <= v)%Q ->
        recommend_quantization v = "Q6_K or Q8_0 (full GPU offload)")
  /\ ((24 <= v)%Q -> (v < 32)%Q ->
        recommend_quantization v = "Q5_K_M (full GPU offload)")
  /\ ((16 <= v)%Q -> (v < 24)%Q ->
        recommend_quantization v = "Q4_K_M (partial GPU offload)")
  /\ ((v < 16)%Q ->
        recommend_quantization v = "Q4_K_M (CPU-heavy, limited GPU)")
  /\ (forall v', (v <= v')%Q ->
        (quant_precision (recommend_quantization v)
         <= quant_precision (recommend_quantization v'))%nat).
Proof.
  unfold recommend_quantization.
  split; [fge_cases; cbn; tauto|].
  split; [intro H; rewrite (proj2 (fge_true v OPTIMAL_VRAM_GB) H);
          reflexivity|].
  split.
  { intros H1 H2.
    rewrite (proj2 (fge_false v OPTIMAL_VRAM_GB) H2),
            (proj2 (fge_true v RECOMMENDED_VRAM_GB) H1). reflexivity. }
  split.
  { intros H1 H2.
    assert (H3 : (v < inject_Z OPTIMAL_VRAM_GB)%Q).
    { apply (Qlt_trans _ _ _ H2). reflexivity. }
    rewrite (proj2 (fge_false v OPTIMAL_VRAM_GB) H3),
            (proj2 (fge_false v RECOMMENDED_VRAM_GB) H2),
            (proj2 (fge_true v MIN_VRAM_GB) H1). reflexivity. }
  split.
  { intro H1.
    assert (H2 : (v < inject_Z RECOMMENDED_VRAM_GB)%Q).
    { apply (Qlt_trans _ _ _ H1). reflexivity. }
    assert (H3 : (v < inject_Z OPTIMAL_VRAM_GB)%Q).
    { apply (Qlt_trans _ _ _ H2). reflexivity. }
    rewrite (proj2 (fge_false v OPTIMAL_VRAM_GB) H3),
            (proj2 (fge_false v RECOMMENDED_VRAM_GB) H2),
            (proj2 (fge_false v MIN_VRAM_GB) H1). reflexivity. }
  intros v' Hle.
  destruct (fge v OPTIMAL_VRAM_GB) eqn:A1.
  { rewrite (fge_mono _ _ _ Hle A1). vm_compute. constructor. }
  destruct (fge v RECOMMENDED_VRAM_GB) eqn:A2.
  { rewrite (fge_mono _ _ _ Hle A2).
    destruct (fge v' OPTIMAL_VRAM_GB); vm_compute; repeat constructor. }
  destruct (fge v MIN_VRAM_GB) eqn:A3.
  { rewrite (fge_mono _ _ _ Hle A3).
    destruct (fge v' OPTIMAL_VRAM_GB), (fge v' RECOMMENDED_VRAM_GB);
      vm_compute; repeat constructor. }
  vm_compute. apply Nat.le_0_l.
Qed.

(** C6: the warnings and recommendations of [validate] are the rendered
    messages, grouped by resource in the order CPU, Memory, GPU, Storage;
    the messages about one resource depend only on that resource's fact. *)
Theorem messages_by_resource (str_int : Z -> string) (str_float : Q -> string) :
  (forall c m g s ts,
     let a := evaluate c m g s in
     let r := validate str_int str_float c m g s ts in
     warnings r = map (render str_int str_float) (acc_warnings a)
     /\ recommendations r = map (render str_int str_float) (acc_recs a)
     /\ ordered_by_resource (acc_warnings a) = true
     /\ ordered_by_resource (acc_recs a) = true)
  /\ (forall c c' m m' g g' s s',
       let a := evaluate c m g s in
       let a' := evaluate c' m' g' s' in
       (c = c' -> msgs_for RCPU (acc_warnings a) = msgs_for RCPU (acc_warnings a')
                  /\ msgs_for RCPU (acc_recs a) = msgs_for RCPU (acc_recs a'))
       /\ (m = m' ->
             msgs_for RMemory (acc_warnings a) = msgs_for RMemory (acc_warnings a')
             /\ msgs_for RMemory (acc_recs a) = msgs_for RMemory (acc_recs a'))
       /\ (g = g' -> msgs_for RGPU (acc_warnings a) = msgs_for RGPU (acc_warnings a')
                     /\ msgs_for RGPU (acc_recs a) = msgs_for RGPU (acc_recs a'))
       /\ (s = s' ->
             msgs_for RStorage (acc_warnings a) = msgs_for RStorage (acc_warnings a')
             /\ msgs_for RStorage (acc_recs a) = msgs_for RStorage (acc_recs a'))).
Proof.
  split.
  - intros c m g s ts. cbv zeta.
    split; [reflexivity|]. split; [reflexivity|].
    unfold evaluate, eval_storage, eval_gpu, eval_memory, eval_cpu.
    destruct g; split;
      repeat match goal with
             | |- context [if ?b then _ else _] => destruct b
             end; reflexivity.
  - intros c c' m m' g g' s s'. cbv zeta.
    destruct (msgs_for_blocks c m g s) as (H1 & H2 & H3 & H4 & H5 & H6 & H7 & H8).
    destruct (msgs_for_blocks c' m' g' s')
      as (H1' & H2' & H3' & H4' & H5' & H6' & H7' & H8').
    rewrite H1, H2, H3, H4, H5, H6, H7, H8, H1', H2', H3', H4', H5', H6',
            H7', H8'.
    split; [|split; [|split]]; intro E; subst; split; reflexivity.
Qed.

(** C9: the GPU block emits no warning and no recommendation exactly when
    a GPU is present with VRAM in [16, 32); an absent GPU, VRAM below 16
    and VRAM of 32 or more all produce GPU messages. *)
Theorem gpu_messages_mid_band (c : CPUInfo) (m : MemoryInfo)
  (g : option GPUInfo) (s : StorageInfo) :
  let a := evaluate c m g s in
  (msgs_for RGPU (acc_warnings a) = [] /\ msgs_for RGPU (acc_recs a) = [])
  <-> (exists x, g = Some x /\ (16 <= vram_gb x)%Q /\ (vram_gb x < 32)%Q).
Proof.
  cbv zeta.
  destruct (msgs_for_blocks c m g s) as (_ & _ & _ & _ & H5 & H6 & _).
  rewrite H5, H6. unfold eval_gpu, flt.
  destruct g as [x|].
  - destruct (fge (vram_gb x) MIN_VRAM_GB) eqn:E16;
      [destruct (fge (vram_gb x) OPTIMAL_VRAM_GB) eqn:E32|]; cbn.
    + split; [intros [_ H]; discriminate|].
      intros (y & Hy & _ & Hlt). injection Hy as <-.
      apply fge_true in E32. exfalso. apply (Qlt_not_le _ _ Hlt E32).
    + split; [intros _|intros _; split; reflexivity].
      exists x. split; [reflexivity|].
      split; [apply fge_true; exact E16 | apply fge_false; exact E32].
    + split; [intros [H _]; discriminate|].
      intros (y & Hy & Hge & _). injection Hy as <-.
      apply fge_false in E16. exfalso. apply (Qlt_not_le _ _ E16 Hge).
  - cbn. split; [intros [H _]; discriminate|].
    intros (y & Hy & _). discriminate.
Qed.

(** C10: two runs whose memory probes measure the same total and any two
    available capacities get the same memory flags (both functions of the
    total alone), the same warnings, recommendations and overall status. *)
Theorem memory_available_ignored (str_int : Z -> string)
  (str_float : Q -> string) (c : CPUInfo) (g : option GPUInfo)
  (s : StorageInfo) (ts : string) (total a1 a2 : Q) :
  let m1 := get_memory_info total a1 in
  let m2 := get_memory_info total a2 in
  let r1 := validate str_int str_float c m1 g s ts in
  let r2 := validate str_int str_float c m2 g s ts in
  mem_meets_minimum m1 = fge total MIN_RAM_GB
  /\ mem_meets_recommended m1 = fge total RECOMMENDED_RAM_GB
  /\ mem_meets_minimum m1 = mem_meets_minimum m2
  /\ mem_meets_recommended m1 = mem_meets_recommended m2
  /\ warnings r1 = warnings r2
  /\ recommendations r1 = recommendations r2
  /\ overall_status r1 = overall_status r2.
Proof. cbv zeta. repeat split; reflexivity. Qed.

(** C4: with the CPU, memory and storage minimums met and no GPU, the
    status is PASSED_WITH_WARNINGS, the warnings contain the CPU-only GPU
    message and the recommendations contain the add-a-GPU message. *)
Theorem no_gpu_passes_with_warnings (str_int : Z -> string)
  (str_float : Q -> string) (c : CPUInfo) (m : MemoryInfo) (s : StorageInfo)
  (ts : string) :
  cpu_meets_minimum c = true -> mem_meets_minimum m = true ->
  sto_meets_minimum s = true ->
  let r := validate str_int str_float c m None s ts in
  overall_status r = "PASSED_WITH_WARNINGS"
  /\ In (render str_int str_float W_no_gpu) (warnings r)
  /\ In (render str_int str_float R_add_gpu) (recommendations r)
  /\ str_contains "GPU" (render str_int str_float W_no_gpu) = true
  /\ str_contains "CPU-only" (render str_int str_float W_no_gpu) = true
  /\ str_contains "Add NVIDIA GPU" (render str_int str_float R_add_gpu) = true.
Proof.
  intros Hc Hm Hs. cbv zeta.
  destruct (evaluate_split c m None s) as [Hw Hr].
  assert (Iw : In W_no_gpu (acc_warnings (evaluate c m None s))).
  { rewrite Hw. apply in_or_app. right. apply in_or_app. right.
    apply in_or_app. left. cbn. left. reflexivity. }
  assert (Ir : In R_add_gpu (acc_recs (evaluate c m None s))).
  { rewrite Hr. apply in_or_app. right. apply in_or_app. right.
    apply in_or_app. left. cbn. left. reflexivity. }
  unfold validate. cbn [overall_status warnings recommendations].
  split; [|split; [apply in_map; exact Iw|split; [apply in_map; exact Ir|]]].
  - unfold status_of, critical_failures, any. rewrite Hc, Hm, Hs. cbn.
    destruct (map (render str_int str_float) (acc_warnings (evaluate c m None s)))
      eqn:E; [|reflexivity].
    apply map_nil_iff in E. rewrite E in Iw. destruct Iw.
  - vm_compute. repeat split.
Qed.

(** C5: a run that completes (the report was saved) exits with a
    non-zero status exactly when the overall status is FAILED; a
    PASSED_WITH_WARNINGS run exits with 0. *)
Theorem exit_status_iff_failed (str_int : Z -> string)
  (str_float : Q -> string) (json_quote : string -> string) (args : Args)
  (c : CPUInfo) (m : MemoryInfo) (g : option GPUInfo) (s : StorageInfo)
  (ts : string) (fault : Fault) (fs : FS) (code : Z) :
  snd (main_run str_int str_float json_quote args c m g s ts fault fs)
    = Exit code ->
  let st := overall_status (validate str_int str_float c m g s ts) in
  (code <> 0%Z <-> st = "FAILED")
  /\ (st = "PASSED_WITH_WARNINGS" -> code = 0%Z).
Proof.
  unfold main_run. cbv zeta.
  remember (overall_status (validate str_int str_float c m g s ts)) as st eqn:Est.
  destruct (save_report str_int str_float json_quote fs (output args)
              (validate str_int str_float c m g s ts) fault) as [fs1 [e|]];
    cbn [snd]; intro H; [discriminate|].
  injection H as <-.
  unfold exit_code.
  destruct (String.eqb_spec st "FAILED") as [EF|EF].
  - split; [split; [intros _; exact EF | intros _; discriminate]|].
    intro EP. rewrite EF in EP. discriminate.
  - destruct (String.eqb st "PASSED_WITH_WARNINGS");
      (split; [split; [intro H; exfalso; apply H; reflexivity|
                       intro H; exfalso; apply EF; exact H]|
               intros _; reflexivity]).
Qed.

(** C7: for every report, GPU present or [null], the text [json.dump]
    writes for [asdict(report)] (indent 2, [ensure_ascii]) is read back by
    [json.load] as exactly that structured form, and reading its fields
    gives the report again.  The number formatting is Python's: each int
    [z] of the report is written as a JSON integer that [int] reads back as
    [z], each float [q] as a JSON number with a fraction or exponent that
    [float] reads back as [q] (repr's round trip). *)
Theorem report_roundtrip (str_int : Z -> string) (str_float : Q -> string)
  (py_int : string -> option Z) (py_float : string -> option Q)
  (r : SystemReport)
  (Hints : Forall (int_token_ok str_int py_int) (report_ints r))
  (Hfloats : Forall (float_token_ok str_float py_float) (report_floats r)) :
  json_load py_int py_float (dump str_int str_float json_str 0 (report_asdict r))
  = Some (report_asdict r)
  /\ obind (json_load py_int py_float
              (dump str_int str_float json_str 0 (report_asdict r)))
       report_of_json = Some r.
Proof.
  pose proof (json_load_dump str_int str_float py_int py_float (report_asdict r)
                (report_json_ok str_int str_float py_int py_float r Hints Hfloats)) as E.
  split; [exact E|]. rewrite E. exact (report_of_asdict r).
Qed.

(** C8 (as amended): a failure to write the report propagates out of
    [save_report] and [main] uncaught.  A failure to open leaves the file
    system untouched; once the file is opened it is truncated and filled
    in place, so a failure after [n] characters leaves exactly the first
    [n] characters of the JSON document at the output path (other paths
    untouched); a successful write leaves the whole document. *)
Theorem save_report_failure_propagates (str_int : Z -> string)
  (str_float : Q -> string) (json_quote : string -> string) (args : Args)
  (c : CPUInfo) (m : MemoryInfo) (g : option GPUInfo) (s : StorageInfo)
  (ts : string) (fs : FS) :
  let doc := dump str_int str_float json_quote 0
               (report_asdict (validate str_int str_float c m g s ts)) in
  let run f := main_run str_int str_float json_quote args c m g s ts f fs in
  (forall e, run (OpenFails e) = (fs, Uncaught e))
  /\ (forall n e,
        snd (run (WriteFailsAfter n e)) = Uncaught e
        /\ fst (run (WriteFailsAfter n e)) (output args)
             = Some (substring 0 n doc)
        /\ (forall p, p <> output args ->
              fst (run (WriteFailsAfter n e)) p = fs p))
  /\ fst (run NoFault) (output args) = Some doc.
Proof.
  cbv zeta. unfold main_run, save_report.
  set (doc := dump str_int str_float json_quote 0
                (report_asdict (validate str_int str_float c m g s ts))).
  unfold write_chunk, open_w, fs_set. cbn.
  split; [reflexivity|]. split.
  - intros n e. split; [reflexivity|]. split.
    + rewrite String.eqb_refl. reflexivity.
    + intros p Hp. apply String.eqb_neq in Hp. rewrite Hp. reflexivity.
  - rewrite String.eqb_refl. reflexivity.
Qed.

(** ** Witnesses and counterexamples *)

Lemma no_gpu_passes_with_warnings_witness :
  cpu_meets_minimum scenario_cpu = true
  /\ mem_meets_minimum scenario_memory = true
  /\ sto_meets_minimum scenario_storage = true
  /\ overall_status (validate py_str_int py_repr_2dp scenario_cpu
                       scenario_memory None scenario_storage scenario_ts)
     = "PASSED_WITH_WARNINGS"
  /\ In (render py_str_int py_repr_2dp W_no_gpu)
        (warnings (validate py_str_int py_repr_2dp scenario_cpu
                     scenario_memory None scenario_storage scenario_ts)).
Proof.
  assert (Hc : cpu_meets_minimum scenario_cpu = true) by reflexivity.
  assert (Hm : mem_meets_minimum scenario_memory = true) by reflexivity.
  assert (Hs : sto_meets_minimum scenario_storage = true) by reflexivity.
  destruct (no_gpu_passes_with_warnings py_str_int py_repr_2dp scenario_cpu
              scenario_memory scenario_storage scenario_ts Hc Hm Hs)
    as (H1 & H2 & _).
  split; [exact Hc|]. split; [exact Hm|]. split; [exact Hs|].
  split; [exact H1|exact H2].
Defined.

Lemma exit_status_iff_failed_witness :
  snd (main_run py_str_int py_repr_2dp py_json_quote scenario_args
         scenario_cpu scenario_memory None scenario_storage scenario_ts
         NoFault fs_with_old_report) = Exit 0%Z
  /\ overall_status (validate py_str_int py_repr_2dp scenario_cpu
                       scenario_memory None scenario_storage scenario_ts)
     = "PASSED_WITH_WARNINGS"
  /\ (0%Z <> 0%Z <-> overall_status (validate py_str_int py_repr_2dp
                       scenario_cpu scenario_memory None scenario_storage
                       scenario_ts) = "FAILED").
Proof.
  assert (H : snd (main_run py_str_int py_repr_2dp py_json_quote scenario_args
                     scenario_cpu scenario_memory None scenario_storage
                     scenario_ts NoFault fs_with_old_report) = Exit 0%Z)
    by (vm_compute; reflexivity).
  split; [exact H|]. split; [vm_compute; reflexivity|].
  exact (proj1 (exit_status_iff_failed py_str_int py_repr_2dp py_json_quote
                  scenario_args scenario_cpu scenario_memory None
                  scenario_storage scenario_ts NoFault fs_with_old_report 0%Z H)).
Defined.

(** C8 as stated fails: with an earlier report at the output path and the
    disk refusing data after the first character, the run ends in the
    uncaught error and the file holds neither the earlier contents nor the
    new document, only its first character. *)
Lemma save_report_not_atomic :
  ~ (forall (args : Args) c m g s ts fault fs e,
       snd (main_run py_str_int py_repr_2dp py_json_quote args c m g s ts
              fault fs) = Uncaught e ->
       fst (main_run py_str_int py_repr_2dp py_json_quote args c m g s ts
              fault fs) (output args) = fs (output args)
       \/ fst (main_run py_str_int py_repr_2dp py_json_quote args c m g s ts
                 fault fs) (output args)
          = Some (dump py_str_int py_repr_2dp py_json_quote 0
                    (report_asdict (validate py_str_int py_repr_2dp c m g s ts)))).
Proof.
  intro H.
  specialize (H scenario_args scenario_cpu scenario_memory None
                scenario_storage scenario_ts (WriteFailsAfter 1 NoSpaceLeft)
                fs_with_old_report NoSpaceLeft).
  assert (E : snd (main_run py_str_int py_repr_2dp py_json_quote scenario_args
                     scenario_cpu scenario_memory None scenario_storage
                     scenario_ts (WriteFailsAfter 1 NoSpaceLeft)
                     fs_with_old_report) = Uncaught NoSpaceLeft)
    by (vm_compute; reflexivity).
  destruct (H E) as [H1|H1]; vm_compute in H1; discriminate H1.
Qed.

(** The report of the scenario above, with no GPU: its JSON text (with a
    [null]) is read back, Python's number formatting evaluated by
    [py_str_int] and [py_repr_2dp]. *)
Lemma report_roundtrip_witness :
  let r := validate py_str_int py_repr_2dp scenario_cpu scenario_memory None
             scenario_storage scenario_ts in
  Forall (int_token_ok py_str_int decimal_int) (report_ints r)
  /\ Forall (float_token_ok py_repr_2dp py_float_2dp) (report_floats r)
  /\ json_load decimal_int py_float_2dp
       (dump py_str_int py_repr_2dp json_str 0 (report_asdict r))
     = Some (report_asdict r)
  /\ obind (json_load decimal_int py_float_2dp
              (dump py_str_int py_repr_2dp json_str 0 (report_asdict r)))
       report_of_json = Some r.
Proof.
  intro r.
  assert (Hi : Forall (int_token_ok py_str_int decimal_int) (report_ints r)).
  { repeat apply Forall_cons; try apply Forall_nil; split; vm_compute; reflexivity. }
  assert (Hf : Forall (float_token_ok py_repr_2dp py_float_2dp) (report_floats r)).
  { repeat apply Forall_cons; try apply Forall_nil; split; vm_compute; reflexivity. }
  split; [exact Hi|]. split; [exact Hf|].
  exact (report_roundtrip py_str_int py_repr_2dp decimal_int py_float_2dp r Hi Hf).
Defined.

(** ** Further properties of the probes, the console report and [main] *)

Lemma srev_app_acc (s acc : string) : srev_app s acc = srev_app s "" ++ acc.
Proof.
  revert acc. induction s as [|ch s IH]; intro acc; cbn; [reflexivity|].
  rewrite (IH (String ch acc)), (IH (String ch "")), sappend_assoc. reflexivity.
Qed.

(** Splitting on a separator that does not occur keeps the string whole. *)
Lemma split_go_absent (sep s cur : string) :
  py_in sep s = false -> split_go sep s 0 cur = [srev cur ++ s].
Proof.
  revert cur. induction s as [|ch s IH]; intros cur H; cbn.
  - rewrite sappend_nil_r. reflexivity.
  - cbn in H. apply orb_false_iff in H as [H1 H2].
    rewrite H1, (IH _ H2). unfold srev. cbn.
    rewrite srev_app_acc, sappend_assoc. reflexivity.
Qed.

Lemma py_split_absent (s sep : string) :
  py_in sep s = false -> py_split s sep = [s].
Proof. intro H. unfold py_split. rewrite (split_go_absent _ _ _ H). reflexivity. Qed.

(** [round2] in integers: [n] is the floor of [100 x], [k] the result in
    hundredths. *)
Lemma round2_spec (p : Z) (d : positive) :
  exists n k, round2 (p # d) = (k # 100)
    /\ (n * Z.pos d <= p * 100 < (n + 1) * Z.pos d)%Z
    /\ (2 * (p * 100 - n * Z.pos d) < Z.pos d -> k = n)%Z
    /\ (2 * (p * 100 - n * Z.pos d) > Z.pos d -> k = n + 1)%Z
    /\ (2 * (p * 100 - n * Z.pos d) = Z.pos d ->
          k = if Z.even n then n else (n + 1))%Z.
Proof.
  pose proof (Qfloor_le ((p # d) * 100)) as Hlo.
  pose proof (Qlt_floor ((p # d) * 100)) as Hhi.
  unfold round2.
  remember (Qfloor ((p # d) * 100)) as n eqn:Hn. clear Hn.
  unfold Qle, Qlt in Hlo, Hhi. cbn in Hlo, Hhi. rewrite Pos.mul_1_r in Hlo, Hhi.
  destruct (((p # d) * 100 - inject_Z n) ?= 1 # 2)%Q eqn:Hc;
    [apply Qeq_alt in Hc | apply Qlt_alt in Hc | apply Qgt_alt in Hc];
    unfold Qeq, Qlt in Hc; cbn in Hc; rewrite ?Pos.mul_1_r in Hc;
    eexists n, _; (split; [reflexivity|]); (split; [lia|]);
    repeat split; intro; lia.
Qed.

Ltac round2_cases p d n k E Hl Hh HLt HGt HEq :=
  destruct (round2_spec p d) as (n & k & E & [Hl Hh] & HLt & HGt & HEq);
  rewrite E; unfold Qle, Qlt; cbn;
  destruct (Z.compare_spec (2 * (p * 100 - n * Z.pos d)) (Z.pos d)) as [C|C|C];
  [ specialize (HEq C); clear HLt HGt;
    destruct (Z.even n) eqn:Ev;
    [ apply Z.even_spec in Ev; destruct Ev as [m ->]
    | rewrite <- Z.negb_odd in Ev; apply negb_false_iff, Z.odd_spec in Ev;
      destruct Ev as [m ->] ]
  | specialize (HLt C); clear HEq HGt
  | specialize (HGt (Z.lt_gt _ _ C)); clear HEq HLt ];
  subst k.

(** The rounded value reaches an integer [N] exactly from [N - 0.005] on
    (the tie [N - 0.005] goes up: its lower neighbour is odd). *)
Lemma round2_ge_int (x : Q) (N : Z) :
  (inject_Z N <= round2 x <-> inject_Z N - (1 # 200) <= x)%Q.
Proof.
  destruct x as [p d].
  round2_cases p d n k E Hl Hh HLt HGt HEq; split; intro H; nia.
Qed.

Lemma round2_le_int (x : Q) (N : Z) :
  (x < inject_Z N -> round2 x <= inject_Z N)%Q.
Proof.
  destruct x as [p d].
  round2_cases p d n k E Hl Hh HLt HGt HEq; intro H; nia.
Qed.

Lemma rbind_ok {A B} (r : Res A) (f : A -> Res B) (x : B) :
  rbind r f = Ok x -> exists a, r = Ok a /\ f a = Ok x.
Proof. destruct r as [a|e]; cbn; intro H; [exists a; auto | discriminate]. Qed.

(** Case on the first [let!] whose scrutinee is closed. *)
Ltac res_step :=
  match goal with
  | |- context [rbind ?r _] =>
      let E := fresh "E" in destruct r eqn:E; cbn [rbind]
  end.

(** Peel the first [let!] of a hypothesis [... = Ok x]. *)
Ltac ok_step H :=
  apply rbind_ok in H;
  let a := fresh "a" in let E := fresh "E" in
  destruct H as (a & E & H); cbv beta zeta in H.

Lemma fst_get_gpu_info_py (pf : string -> option Q) (q1 q2 q3 : Output) :
  fst (get_gpu_info_py pf q1 q2 q3)
  = match gpu_probe pf q1 q2 q3 with Ok g => Some g | Err _ => None end.
Proof.
  unfold get_gpu_info_py. destruct (gpu_probe pf q1 q2 q3) as [g|[]]; reflexivity.
Qed.

Lemma status_of_cases (crit : list bool) (ws : list string) :
  status_of crit ws = "FAILED" \/ status_of crit ws = "PASSED_WITH_WARNINGS"
  \/ status_of crit ws = "PASSED".
Proof. unfold status_of. destruct (any crit), ws; auto. Qed.

Lemma in_map_prefix (p x : string) (l : list string) :
  In x (map (fun w => p ++ w) l) -> exists w, p ++ w = x.
Proof. intro H. apply in_map_iff in H as [w [H _]]. eauto. Qed.

(** A printed line that is not [fail_banner]: its text differs early. *)
Ltac not_banner H :=
  unfold fail_banner, mark_fail, mark_ok, mark_warn, mark_idea, bytes, rule70,
    newline in H; cbn in H; discriminate H.

(** X1: on Linux, an exception in the CPU, memory or storage probe makes
    the whole run FAILED (the probe's zeroed record fails its minimum), and
    the exception is logged to stderr. *)
Theorem linux_probe_failure_fails_run (si : Z -> string) (sf : Q -> string)
  (pi : string -> option Z) (pf : string -> option Q) (cpuinfo nproc : Output)
  (arch : string) (meminfo q1 q2 q3 : Output) (st : Res Statvfs) (df : Output)
  (ts : string)
  (H : (exists e, cpu_probe_linux pi cpuinfo nproc arch = Err e)
       \/ (exists e, memory_probe_linux pi meminfo = Err e)
       \/ (exists e, storage_probe_linux st df = Err e)) :
  let run := validate_linux si sf pi pf cpuinfo nproc arch meminfo q1 q2 q3
               st df ts in
  overall_status (fst run) = "FAILED" /\ snd run <> [].
Proof.
  cbv zeta. unfold validate_linux, get_cpu_info_linux, get_memory_info_linux,
    get_storage_info_linux.
  destruct (get_gpu_info_py pf q1 q2 q3) as [g e3].
  destruct (cpu_probe_linux pi cpuinfo nproc arch) as [c|e1];
  destruct (memory_probe_linux pi meminfo) as [m|e2];
  destruct (storage_probe_linux st df) as [s|e4];
  try (destruct H as [[e H]|[[e H]|[e H]]]; discriminate);
  unfold validate; cbn [fst snd overall_status];
  unfold status_of, critical_failures, any; cbn;
  (split;
   [ repeat match goal with
            | |- context [cpu_meets_minimum ?x] =>
                is_var x; destruct (cpu_meets_minimum x)
            | |- context [mem_meets_minimum ?x] =>
                is_var x; destruct (mem_meets_minimum x)
            | |- context [sto_meets_minimum ?x] =>
                is_var x; destruct (sto_meets_minimum x)
            end; reflexivity
   | intro Hn; repeat (apply app_eq_nil in Hn as [? Hn]); discriminate ]).
Qed.

(** X2: if the stripped output of the first [nvidia-smi] query contains no
    ", " (a single field), [gpu_data[1]] raises IndexError: the GPU is
    reported absent and the error logged. *)
Theorem gpu_query_single_field_absent (pf : string -> option Q) (o : string)
  (q2 q3 : Output) (H : py_in ", " (py_strip o) = false) :
  get_gpu_info_py pf (Completed o) q2 q3 = (None, [IndexError]).
Proof.
  unfold get_gpu_info_py, gpu_probe. cbn [run_check rbind].
  rewrite (py_split_absent _ _ H). reflexivity.
Qed.

(** X3: if the first line of [nvidia-smi] mentioning "CUDA Version" lacks
    the colon ("CUDA Version:"), the lookup [[1]] fails and the whole GPU
    is reported absent, whatever the other queries return. *)
Theorem cuda_line_without_colon_hides_gpu (pf : string -> option Q)
  (q1 : Output) (out2 : string) (q3 : Output) (l : string)
  (rest : list string)
  (Hf : filter (py_in "CUDA Version") (py_split out2 newline) = l :: rest)
  (Hc : py_in "CUDA Version:" l = false) :
  fst (get_gpu_info_py pf q1 (Completed out2) q3) = None.
Proof.
  rewrite fst_get_gpu_info_py. unfold gpu_probe. cbn [run_check rbind]. cbv zeta.
  rewrite Hf, (py_split_absent _ _ Hc). cbn [py_index nth_error rbind].
  repeat res_step; reflexivity.
Qed.

(** X4: the compute-capability query cannot change whether a GPU is
    reported, nor any field other than [compute_capability]: its failure
    is caught by its own handler. *)
Theorem compute_capability_query_independent (pf : string -> option Q)
  (q1 q2 q3 q3' : Output) :
  match gpu_probe pf q1 q2 q3, gpu_probe pf q1 q2 q3' with
  | Ok g, Ok g' =>
      name g = name g' /\ vram_gb g = vram_gb g'
      /\ cuda_version g = cuda_version g' /\ driver_version g = driver_version g'
      /\ recommended_quantization g = recommended_quantization g'
  | Err e, Err e' => e = e'
  | _, _ => False
  end.
Proof. unfold gpu_probe. cbv zeta. repeat res_step; cbn; auto. Qed.

(** X5: on Linux the reported core count is the [nproc --all] output (the
    logical CPUs), and threads equals cores. *)
Theorem linux_cores_are_logical_cpus (pi : string -> option Z)
  (cpuinfo : Output) (out arch : string) (c : CPUInfo)
  (H : cpu_probe_linux pi cpuinfo (Completed out) arch = Ok c) :
  pi (py_strip out) = Some (cores c) /\ threads c = cores c.
Proof.
  unfold cpu_probe_linux in H. ok_step H. ok_step H. cbn [run_check rbind] in H.
  ok_step H. unfold parse_int in E1.
  destruct (pi (py_strip out)) as [n|]; [|discriminate].
  injection E1 as <-. injection H as <-. cbn. auto.
Qed.

(** X6: if the first "model name" line of /proc/cpuinfo has no ':', the
    CPU probe fails with IndexError: zeroed record, error logged. *)
Theorem model_line_without_colon_zeroes_cpu (pi : string -> option Z)
  (text : string) (nproc : Output) (arch l : string) (rest : list string)
  (Hf : filter (py_in "model name") (py_split text newline) = l :: rest)
  (Hc : py_in ":" l = false) :
  get_cpu_info_linux pi (Completed text) nproc arch
  = (cpu_info_fallback arch, [IndexError]).
Proof.
  unfold get_cpu_info_linux, cpu_probe_linux. cbn [run_check rbind]. cbv zeta.
  rewrite Hf, (py_split_absent _ _ Hc). reflexivity.
Qed.

(** X7: a /proc/meminfo without a MemAvailable line gives the zeroed
    memory record (so the run fails) and one logged error. *)
Theorem missing_memavailable_zeroes_memory (pi : string -> option Z)
  (text : string)
  (H : filter (py_in "MemAvailable") (py_split text newline) = []) :
  fst (get_memory_info_linux pi (Completed text)) = memory_info_fallback
  /\ exists e, snd (get_memory_info_linux pi (Completed text)) = [e].
Proof.
  assert (Herr : exists e, memory_probe_linux pi (Completed text) = Err e).
  { unfold memory_probe_linux. cbn [run_check rbind]. cbv zeta. rewrite H.
    cbn [py_index nth_error rbind].
    repeat res_step; eauto. }
  destruct Herr as [e He]. unfold get_memory_info_linux. rewrite He.
  split; [reflexivity | exists e; reflexivity].
Qed.

(** X8: on Linux the memory flags compare the MemTotal value in kB with
    32 GiB and 40 GiB: minimum iff MemTotal >= 33554432 kB, recommended iff
    MemTotal >= 41943040 kB. *)
Theorem memory_minimum_in_kib (pi : string -> option Z) (text : string)
  (m : MemoryInfo) (H : memory_probe_linux pi (Completed text) = Ok m) :
  exists l rest tok total_kb,
    filter (py_in "MemTotal") (py_split text newline) = l :: rest
    /\ nth_error (py_split_ws l) 1 = Some tok /\ pi tok = Some total_kb
    /\ (mem_meets_minimum m = true <-> (33554432 <= total_kb)%Z)
    /\ (mem_meets_recommended m = true <-> (41943040 <= total_kb)%Z).
Proof.
  unfold memory_probe_linux in H. cbn [run_check rbind] in H. cbv zeta in H.
  ok_step H. ok_step H. ok_step H. ok_step H. ok_step H. ok_step H.
  unfold py_index in E, E0. unfold parse_int in E1.
  destruct (filter (py_in "MemTotal") (py_split text newline)) as [|l rest];
    [discriminate|]. cbn in E. injection E as <-.
  destruct (nth_error (py_split_ws l) 1) as [tok|] eqn:Et; [|discriminate].
  injection E0 as <-.
  destruct (pi tok) as [tk|] eqn:Ep; [|discriminate]. injection E1 as <-.
  injection H as <-.
  exists l, rest, tok, tk. repeat split; auto;
    cbn [mem_meets_minimum mem_meets_recommended get_memory_info];
    unfold MIN_RAM_GB, RECOMMENDED_RAM_GB; rewrite ?fge_true;
    unfold Qle; cbn; intro; lia.
Qed.

(** X9: the storage minimum compares the space available to unprivileged
    users ([f_bavail * f_frsize]) with 50 GiB in bytes; the filesystem
    label comes from [df]. *)
Theorem storage_minimum_in_bytes (v : Statvfs) (df : Output) :
  exists s, storage_probe_linux (Ok v) df = Ok s
    /\ (sto_meets_minimum s = true
          <-> (53687091200 <= f_bavail v * f_frsize v)%Z)
    /\ filesystem s = df_filesystem df.
Proof.
  eexists. split; [reflexivity|].
  cbn [sto_meets_minimum filesystem get_storage_info].
  unfold MIN_STORAGE_GB. rewrite fge_true. unfold Qle; cbn.
  split; [split; lia | reflexivity].
Qed.

(** X10: a memory total in [31.995, 32) GB is reported as 32.00 yet fails
    the minimum; likewise available storage in [49.995, 50) is reported as
    50.00 and fails: the flags use the unrounded values. *)
Theorem rounded_total_hides_shortfall (mem_total mem_avail sto_total
  sto_avail : Q) (fs : string)
  (H1 : (6399 # 200 <= mem_total)%Q) (H2 : (mem_total < 32)%Q)
  (H3 : (9999 # 200 <= sto_avail)%Q) (H4 : (sto_avail < 50)%Q) :
  (mem_total_gb (get_memory_info mem_total mem_avail) == 32)%Q
  /\ mem_meets_minimum (get_memory_info mem_total mem_avail) = false
  /\ (sto_available_gb (get_storage_info sto_total sto_avail fs) == 50)%Q
  /\ sto_meets_minimum (get_storage_info sto_total sto_avail fs) = false.
Proof.
  cbn [mem_total_gb mem_meets_minimum sto_available_gb sto_meets_minimum
       get_memory_info get_storage_info].
  rewrite !fge_false. repeat split; try assumption;
  apply Qle_antisym;
    first [ apply (round2_le_int _ 32 H2) | apply (round2_le_int _ 50 H4)
          | apply (proj2 (round2_ge_int _ 32)); exact H1
          | apply (proj2 (round2_ge_int _ 50)); exact H3 ].
Qed.

(** X11: the GPU tiers compare the rounded VRAM: the top recommendation
    holds iff [vram_mb / 1024 >= 31.995], the low-VRAM warning iff
    [vram_mb / 1024 < 15.995]. *)
Theorem gpu_tiers_use_rounded_vram (name_ driver cuda cc : string)
  (vram_mb : Q) :
  let g := get_gpu_info name_ vram_mb driver cuda cc in
  (recommended_quantization g = "Q6_K or Q8_0 (full GPU offload)"
     <-> (6399 # 200 <= vram_mb / 1024)%Q)
  /\ (flt (vram_gb g) MIN_VRAM_GB = true <-> (vram_mb / 1024 < 3199 # 200)%Q).
Proof.
  cbv zeta. cbn [recommended_quantization vram_gb get_gpu_info].
  pose proof (round2_ge_int (vram_mb / 1024) 32) as R32.
  pose proof (round2_ge_int (vram_mb / 1024) 16) as R16.
  split.
  - unfold recommend_quantization.
    destruct (fge (round2 (vram_mb / 1024)) OPTIMAL_VRAM_GB) eqn:E.
    + apply fge_true in E. split; [intros _; apply R32; exact E | reflexivity].
    + apply fge_false in E. split.
      * intro Hs. repeat (destruct (fge _ _)); discriminate.
      * intro Hv. apply R32 in Hv. exfalso. apply (Qlt_not_le _ _ E Hv).
  - unfold flt. rewrite negb_true_iff, fge_false. split.
    + intro Hl. apply Qnot_le_lt. intro Hv. apply R16 in Hv.
      apply (Qlt_not_le _ _ Hl Hv).
    + intro Hl. apply Qnot_le_lt. intro Hv. apply R16 in Hv.
      apply (Qlt_not_le _ _ Hl Hv).
Qed.

(** X12: the printed report shows the "SYSTEM VALIDATION FAILED" banner
    exactly when [main] exits with status 1. *)
Theorem failed_banner_iff_exit_one (si : Z -> string) (sf : Q -> string)
  (c : CPUInfo) (m : MemoryInfo) (g : option GPUInfo) (s : StorageInfo)
  (ts : string) :
  let r := validate si sf c m g s ts in
  In fail_banner (print_report si sf r) <-> exit_code (overall_status r) = 1%Z.
Proof.
  cbv zeta. set (r := validate si sf c m g s ts).
  assert (Hst : overall_status r = "FAILED"
                \/ overall_status r = "PASSED_WITH_WARNINGS"
                \/ overall_status r = "PASSED") by apply status_of_cases.
  unfold print_report. rewrite !in_app_iff.
  destruct Hst as [Hs|[Hs|Hs]]; rewrite Hs; split; intro H;
    try discriminate H.
  - reflexivity.
  - do 6 right. left. cbn. left. reflexivity.
  - exfalso. destruct (gpu r); destruct (warnings r) as [|w0 ws];
    destruct (recommendations r) as [|x0 xs];
    cbv [String.eqb Ascii.eqb Bool.eqb] in H; cbn [In] in H;
    repeat match goal with H : _ \/ _ |- _ => destruct H as [H|H] end;
    try contradiction;
    try (apply in_map_prefix in H; destruct H as [? H]);
    not_banner H.
  - exfalso. destruct (gpu r); destruct (warnings r) as [|w0 ws];
    destruct (recommendations r) as [|x0 xs];
    cbv [String.eqb Ascii.eqb Bool.eqb] in H; cbn [In] in H;
    repeat match goal with H : _ \/ _ |- _ => destruct H as [H|H] end;
    try contradiction;
    try (apply in_map_prefix in H; destruct H as [? H]);
    not_banner H.
Qed.

(** X13: [--quiet] changes only the console: the file system and the exit
    are those of [main_run]; with it only the "Report saved to" line is
    printed (nothing if the save raises); without it the report is printed
    first, also when the save then raises. *)
Theorem quiet_only_silences_console (si : Z -> string) (sf : Q -> string)
  (jq res : string -> string) (args : Args) (c : CPUInfo) (m : MemoryInfo)
  (g : option GPUInfo) (s : StorageInfo) (ts : string) (fault : Fault)
  (fs : FS) :
  let saved := ["Report saved to: " ++ res (output args)] in
  fst (main_io si sf jq res args c m g s ts fault fs)
    = main_run si sf jq args c m g s ts fault fs
  /\ snd (main_io si sf jq res (mkArgs (target_dir args) (output args) true)
            c m g s ts fault fs)
     = (match snd (main_run si sf jq args c m g s ts fault fs) with
        | Exit _ => saved | Uncaught _ => [] end)
  /\ snd (main_io si sf jq res (mkArgs (target_dir args) (output args) false)
            c m g s ts fault fs)
     = (print_report si sf (validate si sf c m g s ts)
        ++ match snd (main_run si sf jq args c m g s ts fault fs) with
           | Exit _ => saved | Uncaught _ => [] end)%list.
Proof.
  cbv zeta. unfold main_io, main_run. cbn [output quiet].
  destruct (save_report si sf jq fs (output args)
              (validate si sf c m g s ts) fault) as [fs' [e|]];
    cbn; rewrite ?app_nil_r; repeat split; reflexivity.
Qed.

(** X14: a [df -T] output of a single line (no newline) leaves the
    filesystem "Unknown" while the space is still measured. *)
Theorem df_single_line_unknown_filesystem (v : Statvfs) (o : string)
  (H : py_in newline o = false) :
  exists s, storage_probe_linux (Ok v) (Completed o) = Ok s
    /\ filesystem s = "Unknown".
Proof.
  eexists. split; [reflexivity|]. cbn [filesystem get_storage_info].
  unfold df_filesystem. destruct o as [|ch t]; [reflexivity|].
  rewrite (py_split_absent _ _ H). reflexivity.
Qed.

(** Witnesses, on the test suite's probe outputs where they apply. *)

Lemma linux_probe_failure_fails_run_witness :
  memory_probe_linux decimal_int
    (Completed ("MemTotal:       32000000 kB" ++ newline)) = Err IndexError
  /\ (overall_status
        (fst (validate_linux py_str_int py_repr_2dp decimal_int decimal_float
                (Completed test_cpuinfo) (Completed test_nproc) "x86_64"
                (Completed ("MemTotal:       32000000 kB" ++ newline))
                (Raised CalledProcessError) (Raised CalledProcessError)
                (Raised CalledProcessError) (Ok test_statvfs)
                (Raised FileNotFoundError) scenario_ts)) = "FAILED"
      /\ snd (validate_linux py_str_int py_repr_2dp decimal_int decimal_float
                (Completed test_cpuinfo) (Completed test_nproc) "x86_64"
                (Completed ("MemTotal:       32000000 kB" ++ newline))
                (Raised CalledProcessError) (Raised CalledProcessError)
                (Raised CalledProcessError) (Ok test_statvfs)
                (Raised FileNotFoundError) scenario_ts) <> []).
Proof.
  split; [vm_compute; reflexivity|].
  apply (linux_probe_failure_fails_run py_str_int py_repr_2dp decimal_int
           decimal_float (Completed test_cpuinfo) (Completed test_nproc)
           "x86_64" (Completed ("MemTotal:       32000000 kB" ++ newline))
           (Raised CalledProcessError) (Raised CalledProcessError)
           (Raised CalledProcessError) (Ok test_statvfs)
           (Raised FileNotFoundError) scenario_ts).
  right. left. exists IndexError. vm_compute. reflexivity.
Defined.

Lemma gpu_query_single_field_absent_witness :
  py_in ", " (py_strip "[N/A]") = false
  /\ get_gpu_info_py decimal_float (Completed "[N/A]")
       (Completed "CUDA Version: 12.6") (Completed "9.0")
     = (None, [IndexError]).
Proof.
  split; [vm_compute; reflexivity|].
  apply (gpu_query_single_field_absent decimal_float "[N/A]"
           (Completed "CUDA Version: 12.6") (Completed "9.0")).
  vm_compute. reflexivity.
Defined.

Lemma cuda_line_without_colon_hides_gpu_witness :
  filter (py_in "CUDA Version") (py_split "CUDA Version 12.6" newline)
    = ["CUDA Version 12.6"]
  /\ py_in "CUDA Version:" "CUDA Version 12.6" = false
  /\ fst (get_gpu_info_py decimal_float
            (Completed "NVIDIA RTX 5090, 32768, 560.35")
            (Completed "CUDA Version 12.6") (Completed "9.0")) = None.
Proof.
  split; [vm_compute; reflexivity|]. split; [vm_compute; reflexivity|].
  apply (cuda_line_without_colon_hides_gpu decimal_float
           (Completed "NVIDIA RTX 5090, 32768, 560.35") "CUDA Version 12.6"
           (Completed "9.0") "CUDA Version 12.6" []);
    vm_compute; reflexivity.
Defined.

Lemma linux_cores_are_logical_cpus_witness :
  cpu_probe_linux decimal_int (Completed test_cpuinfo) (Completed test_nproc)
    "x86_64"
    = Ok (get_cpu_info "AMD Ryzen 7 7700X 8-Core Processor" 16 16 "x86_64")
  /\ (decimal_int (py_strip test_nproc)
        = Some (cores (get_cpu_info "AMD Ryzen 7 7700X 8-Core Processor"
                         16 16 "x86_64"))
      /\ threads (get_cpu_info "AMD Ryzen 7 7700X 8-Core Processor" 16 16
                    "x86_64")
         = cores (get_cpu_info "AMD Ryzen 7 7700X 8-Core Processor" 16 16
                    "x86_64")).
Proof.
  split; [vm_compute; reflexivity|].
  apply (linux_cores_are_logical_cpus decimal_int (Completed test_cpuinfo)
           test_nproc "x86_64").
  vm_compute. reflexivity.
Defined.

Lemma model_line_without_colon_zeroes_cpu_witness :
  filter (py_in "model name") (py_split "model name AMD Ryzen" newline)
    = ["model name AMD Ryzen"]
  /\ py_in ":" "model name AMD Ryzen" = false
  /\ get_cpu_info_linux decimal_int (Completed "model name AMD Ryzen")
       (Completed test_nproc) "x86_64"
     = (cpu_info_fallback "x86_64", [IndexError]).
Proof.
  split; [vm_compute; reflexivity|]. split; [vm_compute; reflexivity|].
  apply (model_line_without_colon_zeroes_cpu decimal_int
           "model name AMD Ryzen" (Completed test_nproc) "x86_64"
           "model name AMD Ryzen" []);
    vm_compute; reflexivity.
Defined.

Lemma missing_memavailable_zeroes_memory_witness :
  filter (py_in "MemAvailable")
    (py_split ("MemTotal:       32000000 kB" ++ newline) newline) = []
  /\ (fst (get_memory_info_linux decimal_int
             (Completed ("MemTotal:       32000000 kB" ++ newline)))
        = memory_info_fallback
      /\ exists e, snd (get_memory_info_linux decimal_int
                          (Completed ("MemTotal:       32000000 kB" ++ newline)))
                   = [e]).
Proof.
  split; [vm_compute; reflexivity|].
  apply (missing_memavailable_zeroes_memory decimal_int
           ("MemTotal:       32000000 kB" ++ newline)).
  vm_compute. reflexivity.
Defined.

Lemma memory_minimum_in_kib_witness :
  memory_probe_linux decimal_int (Completed test_meminfo)
    = Ok (get_memory_info (inject_Z 32000000 / inject_Z (1024 ^ 2))
                          (inject_Z 28000000 / inject_Z (1024 ^ 2)))
  /\ exists l rest tok total_kb,
    filter (py_in "MemTotal") (py_split test_meminfo newline) = l :: rest
    /\ nth_error (py_split_ws l) 1 = Some tok /\ decimal_int tok = Some total_kb
    /\ (mem_meets_minimum (get_memory_info (inject_Z 32000000 / inject_Z (1024 ^ 2))
                             (inject_Z 28000000 / inject_Z (1024 ^ 2))) = true
          <-> (33554432 <= total_kb)%Z)
    /\ (mem_meets_recommended
          (get_memory_info (inject_Z 32000000 / inject_Z (1024 ^ 2))
             (inject_Z 28000000 / inject_Z (1024 ^ 2))) = true
          <-> (41943040 <= total_kb)%Z).
Proof.
  split; [vm_compute; reflexivity|].
  apply (memory_minimum_in_kib decimal_int test_meminfo).
  vm_compute. reflexivity.
Defined.

Lemma rounded_total_hides_shortfall_witness :
  ((6399 # 200 <= 7999 # 250)%Q /\ (7999 # 250 < 32)%Q
   /\ (9999 # 200 <= 49999 # 1000)%Q /\ (49999 # 1000 < 50)%Q)
  /\ ((mem_total_gb (get_memory_info (7999 # 250) 28) == 32)%Q
      /\ mem_meets_minimum (get_memory_info (7999 # 250) 28) = false
      /\ (sto_available_gb (get_storage_info 500 (49999 # 1000) "ext4") == 50)%Q
      /\ sto_meets_minimum (get_storage_info 500 (49999 # 1000) "ext4") = false).
Proof.
  assert (H1 : (6399 # 200 <= 7999 # 250)%Q) by (vm_compute; discriminate).
  assert (H2 : (7999 # 250 < 32)%Q) by (vm_compute; reflexivity).
  assert (H3 : (9999 # 200 <= 49999 # 1000)%Q) by (vm_compute; discriminate).
  assert (H4 : (49999 # 1000 < 50)%Q) by (vm_compute; reflexivity).
  split; [auto|].
  exact (rounded_total_hides_shortfall (7999 # 250) 28 500 (49999 # 1000)
           "ext4" H1 H2 H3 H4).
Defined.

Lemma df_single_line_unknown_filesystem_witness :
  py_in newline "Filesystem     Type" = false
  /\ exists s, storage_probe_linux (Ok test_statvfs)
                 (Completed "Filesystem     Type") = Ok s
               /\ filesystem s = "Unknown".
Proof.
  split; [vm_compute; reflexivity|].
  apply (df_single_line_unknown_filesystem test_statvfs "Filesystem     Type").
  vm_compute. reflexivity.
Defined.

End Validator.
